(** * Reward engines and production observation path of the heat-pump controller

    Shallow embedding of [sinergym/utils/rewards.py] (classes [LinearReward],
    [NuestroReward], [NuestroRewardMultizona], [NuestroRewardMultizonaPPO]) and
    of [PyEnvProduction._get_observation_api] from
    [sinergym/envs/pyenv_production.py].

    Conventions of the embedding:
    - Python floats are exact rationals ([Q]); rounding is not modelled and
      equalities between computed readings are stated with [==].
    - Python dictionaries with string keys are [gmap string _].
    - A method of an engine is a computation in the state-and-exception monad
      [M self]: the state is the instance ([self]), a raised exception leaves
      the attribute writes done before it.
    - Files read by a constructor (tariff JSON, schedule CSV) are passed as
      their parsed contents; logger calls are dropped. *)

From Stdlib Require Import ZArith QArith Qminmax Lqa Lia.
From stdpp Require Import gmap strings list.

(** ** Python runtime: exceptions, values, numeric builtins *)

Module Py.

Inductive exn : Type :=
| ValueError
| TypeError
| KeyError
| IndexError
| AttributeError.

Inductive result (A : Type) : Type :=
| Ok (a : A)
| Raise (e : exn).
Arguments Ok {A} a.
Arguments Raise {A} e.

#[global] Instance result_ret : MRet result := λ A a, Ok a.
#[global] Instance result_bind : MBind result :=
  λ A B f r, match r with Ok a => f a | Raise e => Raise e end.

(** State-and-exception monad: the state is kept when an exception is raised. *)
Definition M (S A : Type) : Type := S → result A * S.

#[global] Instance M_ret S : MRet (M S) := λ A a s, (Ok a, s).
#[global] Instance M_bind S : MBind (M S) :=
  λ A B f m s,
    match m s with
    | (Ok a, s') => f a s'
    | (Raise e, s') => (Raise e, s')
    end.

Definition lift {S A} (r : result A) : M S A := λ s, (r, s).
Definition get {S} : M S S := λ s, (Ok s, s).
Definition modify {S} (f : S → S) : M S unit := λ s, (Ok tt, f s).

(** A property of the instance that a computation keeps, whether it returns
    or raises. *)
Definition preserves {S A} (P : S → Prop) (m : M S A) : Prop :=
  ∀ s r s', m s = (r, s') → P s → P s'.

(** Values that occur as variable names and as dictionary entries. *)
Inductive pyval : Type :=
| VStr (s : string)
| VNum (q : Q)
| VBool (b : bool)
| VNone.

(** [isinstance(v, str)] *)
Definition isinstance_str (v : pyval) : bool :=
  match v with VStr _ => true | _ => false end.

(** [obs_dict[k]] on a dictionary whose keys are strings: any other hashable
    key is absent. *)
Definition getitem (obs_dict : gmap string Q) (k : pyval) : result Q :=
  match k with
  | VStr s => match obs_dict !! s with Some v => Ok v | None => Raise KeyError end
  | _ => Raise KeyError
  end.

(** [l[i]] for a non-negative literal index. *)
Definition index {A} (l : list A) (i : nat) : result A :=
  match l !! i with Some x => Ok x | None => Raise IndexError end.

(** Reading an instance attribute that is only created by [__call__]. *)
Definition attr {S} (a : option Q) : M S Q :=
  match a with Some q => mret q | None => lift (Raise AttributeError) end.

(** [int(x)]: truncation towards zero. *)
Definition int (x : Q) : Z := Z.quot (Qnum x) (Z.pos (Qden x)).

(** [max(a, b)] returns the first of the largest arguments. *)
Definition max2 (a b : Q) : Q := if Qlt_le_dec a b then b else a.

(** [max(a, b, c, ...)] *)
Definition max_of (a : Q) (rest : list Q) : Q := fold_left max2 rest a.

(** [sum(l)]: left to right from [0]. *)
Definition sum (l : list Q) : Q := fold_left Qplus l 0%Q.

(** [0 <= w <= 1] *)
Definition between (lo x hi : Q) : bool := Qle_bool lo x && Qle_bool x hi.

(** [[f(v) for v in l]] where [f] may raise. *)
Fixpoint comprehension {A B} (f : A → result B) (l : list A) : result (list B) :=
  match l with
  | [] => Ok []
  | v :: l' => x ← f v; xs ← comprehension f l'; mret (x :: xs)
  end.

(** [zip(a, b)]: stops at the shorter list. *)
Fixpoint zip {A B} (a : list A) (b : list B) : list (A * B) :=
  match a, b with
  | x :: a', y :: b' => (x, y) :: zip a' b'
  | _, _ => []
  end.

End Py.

Import Py.

(** ** [datetime.datetime]: proleptic Gregorian calendar of the standard library *)

Module Datetime.

Definition MINYEAR : Z := 1.
Definition MAXYEAR : Z := 9999.

Definition _is_leap (year : Z) : bool :=
  (year mod 4 =? 0)%Z && (negb (year mod 100 =? 0)%Z || (year mod 400 =? 0)%Z).

Definition _days_before_year (year : Z) : Z :=
  let y := (year - 1)%Z in
  (y * 365 + y / 4 - y / 100 + y / 400)%Z.

Definition _DAYS_IN_MONTH : list Z :=
  [-1; 31; 28; 31; 30; 31; 30; 31; 31; 30; 31; 30; 31]%Z.

Definition _DAYS_BEFORE_MONTH : list Z :=
  [-1; 0; 31; 59; 90; 120; 151; 181; 212; 243; 273; 304; 334]%Z.

Definition _days_in_month (year month : Z) : Z :=
  if (month =? 2)%Z && _is_leap year then 29%Z
  else nth (Z.to_nat month) _DAYS_IN_MONTH 0%Z.

Definition _days_before_month (year month : Z) : Z :=
  (nth (Z.to_nat month) _DAYS_BEFORE_MONTH 0
   + (if (2 <? month)%Z && _is_leap year then 1 else 0))%Z.

Definition _ymd2ord (year month day : Z) : Z :=
  (_days_before_year year + _days_before_month year month + day)%Z.

Record datetime : Type := {
  year : Z;
  month : Z;
  day : Z;
  hour : Z
}.

Definition _check_date_fields (year month day : Z) : bool :=
  (MINYEAR <=? year)%Z && (year <=? MAXYEAR)%Z
  && (1 <=? month)%Z && (month <=? 12)%Z
  && (1 <=? day)%Z && (day <=? _days_in_month year month)%Z.

Definition _check_time_fields (hour : Z) : bool :=
  (0 <=? hour)%Z && (hour <=? 23)%Z.

(** [datetime(year, month, day, hour)] *)
Definition new (year month day hour : Z) : result datetime :=
  if _check_date_fields year month day && _check_time_fields hour
  then Ok {| year := year; month := month; day := day; hour := hour |}
  else Raise ValueError.

Definition toordinal (dt : datetime) : Z :=
  _ymd2ord (year dt) (month dt) (day dt).

(** [dt.weekday()]: 0 is Monday, 6 is Sunday. *)
Definition weekday (dt : datetime) : Z := ((toordinal dt + 6) mod 7)%Z.

(** [pd.Timestamp(year=..., month=..., day=...)]: a calendar date, refused when
    the fields do not name a day of the calendar. *)
Definition Timestamp (year month day : Z) : result (Z * Z * Z) :=
  if _check_date_fields year month day
  then Ok (year, month, day)
  else Raise ValueError.

End Datetime.

(** ** [class LinearReward]: construction *)

Module LinearReward.

Record self : Type := {
  temp_names : list pyval;
  energy_names : list pyval;
  range_comfort_winter : Q * Q;
  range_comfort_summer : Q * Q;
  W_energy : Q;
  lambda_energy : Q;
  lambda_temp : Q;
  summer_start : Z * Z;
  summer_final : Z * Z
}.

Definition __init__
    (temperature_variables energy_variables : list pyval)
    (range_comfort_winter range_comfort_summer : Q * Q)
    (summer_start summer_final : Z * Z)
    (energy_weight lambda_energy lambda_temperature : Q) : result self :=
  if negb (between 0 energy_weight 1) then Raise ValueError
  else if negb (forallb isinstance_str (temperature_variables ++ energy_variables))
  then Raise TypeError
  else Ok {| temp_names := temperature_variables;
             energy_names := energy_variables;
             range_comfort_winter := range_comfort_winter;
             range_comfort_summer := range_comfort_summer;
             W_energy := energy_weight;
             lambda_energy := lambda_energy;
             lambda_temp := lambda_temperature;
             summer_start := summer_start;
             summer_final := summer_final |}.

End LinearReward.

(** ** Presence schedule: the table read from [schedule_csv] *)

Module Schedule.

Record row : Type := {
  date : Z * Z * Z;
  hour : Z;
  my_factor : Q
}.

Definition date_eqb (a b : Z * Z * Z) : bool :=
  let '(y1, m1, d1) := a in
  let '(y2, m2, d2) := b in
  (y1 =? y2)%Z && (m1 =? m2)%Z && (d1 =? d2)%Z.

(** [schedule[(schedule['date'] == current_date) & (schedule['hour'] == current_hour)]] *)
Definition select (schedule : list row) (current_date : Z * Z * Z) (current_hour : Z)
    : list row :=
  List.filter (λ r, date_eqb (date r) current_date && (hour r =? current_hour)%Z)
              schedule.

End Schedule.

(** ** [class NuestroReward] *)

Module NuestroReward.

Record self : Type := {
  temp_names : list pyval;
  energy_names : list pyval;
  W_energy : Q;
  lambda_energy : Q;
  lambda_temp : Q;
  low_price : Q;
  high_price : Q;
  schedule : option (list Schedule.row);
  (* attributes created by [__call__] *)
  total_energy : option Q;
  energy_penalty : option Q;
  total_temp_violation : option Q;
  comfort_penalty : option Q
}.

Definition set_W_energy (v : Q) (s : self) : self :=
  let 'Build_self tn en _ le lt lp hp sc te ep tv cp := s in
  Build_self tn en v le lt lp hp sc te ep tv cp.
Definition set_total_energy (v : Q) (s : self) : self :=
  let 'Build_self tn en w le lt lp hp sc _ ep tv cp := s in
  Build_self tn en w le lt lp hp sc (Some v) ep tv cp.
Definition set_energy_penalty (v : Q) (s : self) : self :=
  let 'Build_self tn en w le lt lp hp sc te _ tv cp := s in
  Build_self tn en w le lt lp hp sc te (Some v) tv cp.
Definition set_total_temp_violation (v : Q) (s : self) : self :=
  let 'Build_self tn en w le lt lp hp sc te ep _ cp := s in
  Build_self tn en w le lt lp hp sc te ep (Some v) cp.
Definition set_comfort_penalty (v : Q) (s : self) : self :=
  let 'Build_self tn en w le lt lp hp sc te ep tv _ := s in
  Build_self tn en w le lt lp hp sc te ep tv (Some v).

Definition gets {A} (f : self → A) : M self A := s ← get; mret (f s).
Definition getattr (f : self → option Q) : M self Q := s ← get; attr (f s).

Definition __init__
    (temperature_variables energy_variables : list pyval)
    (energy_weight lambda_energy lambda_temperature high_price low_price : Q)
    (schedule_csv : option (list Schedule.row)) : result self :=
  if negb (between 0 energy_weight 1) then Raise ValueError
  else if negb (forallb isinstance_str (temperature_variables ++ energy_variables))
  then Raise TypeError
  else Ok {| temp_names := temperature_variables;
             energy_names := energy_variables;
             W_energy := energy_weight;
             lambda_energy := lambda_energy;
             lambda_temp := lambda_temperature;
             low_price := low_price;
             high_price := high_price;
             schedule := schedule_csv;
             total_energy := None;
             energy_penalty := None;
             total_temp_violation := None;
             comfort_penalty := None |}.

Definition _get_energy_consumed (obs_dict : gmap string Q) : M self (list Q) :=
  names ← gets energy_names;
  lift (comprehension (getitem obs_dict) names).

(** The argument list of [max(-0,5 - (pmv), 0, pmv - 0,5)] has five items:
    [-0], [5 - (pmv)], [0], [pmv - 0] and [5]. *)
Definition _get_temperature_violation (obs_dict : gmap string Q) : M self (list Q) :=
  names ← gets temp_names;
  k0 ← lift (index names 0);
  tdb ← lift (getitem obs_dict k0);
  k1 ← lift (index names 1);
  rh ← lift (getitem obs_dict k1);
  let pmv := (-7.4928 + 0.2882 * tdb - 0.0020 * rh + 0.0004 * tdb * rh)%Q in
  let violacion := max_of (- 0)%Q [5 - pmv; 0; pmv - 0; 5]%Q in
  mret [violacion].

Definition _get_reward : M self (Q * Q * Q) :=
  le ← gets lambda_energy;
  w ← gets W_energy;
  ep ← getattr energy_penalty;
  let energy_term := (le * w * ep)%Q in
  lt ← gets lambda_temp;
  w' ← gets W_energy;
  cp ← getattr comfort_penalty;
  let comfort_term := (lt * (1 - w') * cp)%Q in
  let reward := (energy_term + comfort_term)%Q in
  mret (reward, energy_term, comfort_term).

(** The presence-schedule block of [__call__]. *)
Definition _apply_schedule (YEAR : Z) (obs_dict : gmap string Q) : M self unit :=
  sched ← gets schedule;
  match sched with
  | None => mret tt
  | Some rows =>
      mo ← lift (getitem obs_dict (VStr "month"));
      dd ← lift (getitem obs_dict (VStr "day_of_month"));
      current_date ← lift (Datetime.Timestamp YEAR (int mo) (int dd));
      hh ← lift (getitem obs_dict (VStr "hour"));
      let current_hour := int hh in
      let row := Schedule.select rows current_date current_hour in
      match row with
      | [] => mret tt
      | r0 :: _ =>
          let factor := Schedule.my_factor r0 in
          if Qeq_bool factor 0 then modify (set_W_energy 1) else mret tt
      end
  end.

Definition __call__ (YEAR : Z) (obs_dict : gmap string Q)
    : M self (Q * gmap string Q) :=
  (* Energy calculation *)
  mo ← lift (getitem obs_dict (VStr "month"));
  let month := Z.max 1 (Z.min 12 (int mo)) in
  dd ← lift (getitem obs_dict (VStr "day_of_month"));
  let day := Z.max 1 (Z.min 28 (int dd)) in
  hh ← lift (getitem obs_dict (VStr "hour"));
  let hour_raw := Z.max 0 (Z.min 23 (int hh)) in
  current_dt ← lift (Datetime.new YEAR month day hour_raw);
  let weekday := Datetime.weekday current_dt in
  let hour := Datetime.hour current_dt in
  lp ← gets low_price;
  hp ← (if (weekday <? 5)%Z && ((17 <=? hour)%Z && (hour <=? 21)%Z)
        then gets high_price else mret lp);
  let price_kwh := hp in
  energy_values ← _get_energy_consumed obs_dict;
  _ ← modify (set_total_energy (sum energy_values));
  te ← getattr total_energy;
  _ ← modify (set_energy_penalty (- (te / 1000) * price_kwh)%Q);
  (* Comfort violation calculation *)
  temp_violations ← _get_temperature_violation obs_dict;
  _ ← modify (set_total_temp_violation (sum temp_violations));
  tv ← getattr total_temp_violation;
  _ ← modify (set_comfort_penalty (- tv)%Q);
  (* Schedule de presencia *)
  _ ← _apply_schedule YEAR obs_dict;
  (* Weighted sum of both terms *)
  '(reward, energy_term, comfort_term) ← _get_reward;
  ep ← getattr energy_penalty;
  cp ← getattr comfort_penalty;
  te' ← getattr total_energy;
  tv' ← getattr total_temp_violation;
  w ← gets W_energy;
  let reward_terms : gmap string Q :=
    {[ "energy_term" := energy_term;
       "comfort_term" := comfort_term;
       "energy_penalty" := ep;
       "comfort_penalty" := cp;
       "total_power_demand" := te';
       "total_temperature_violation" := tv';
       "reward_weight" := w ]} in
  mret (reward, reward_terms).

End NuestroReward.

(** ** Tariff file: the object returned by [json.load] *)

Module Tarifa.

Record precios : Type := {
  punta : Q;
  fuera_de_punta : Q
}.

Record horarios : Type := {
  punta_inicio : Z;
  punta_fin : Z;
  dias_punta : list string
}.

Record t : Type := {
  tarifa_precios : precios;
  tarifa_horarios : horarios
}.

Definition dias_map : gmap string Z :=
  {[ "lunes" := 0%Z; "martes" := 1%Z; "miercoles" := 2%Z; "jueves" := 3%Z;
     "viernes" := 4%Z; "sabado" := 5%Z; "domingo" := 6%Z ]}.

(** [dias_map[d]] *)
Definition dia (d : string) : result Z :=
  match dias_map !! d with Some n => Ok n | None => Raise KeyError end.

End Tarifa.

(** ** [class NuestroRewardMultizona] *)

Module NuestroRewardMultizona.

Record self : Type := {
  temp_names : list pyval;
  hum_names : list pyval;
  energy_names : list pyval;
  W_energy : Q;
  lambda_energy : Q;
  lambda_temp : Q;
  precio_punta : Q;
  precio_fuera_punta : Q;
  punta_inicio : Z;
  punta_fin : Z;
  dias_punta : list Z;
  (* attributes created by [__call__] *)
  total_energy : option Q;
  energy_penalty : option Q;
  total_temp_violation : option Q;
  comfort_penalty : option Q
}.

Definition set_total_energy (v : Q) (s : self) : self :=
  let 'Build_self tn hn en w le lt pp pf pi pe dp _ ep tv cp := s in
  Build_self tn hn en w le lt pp pf pi pe dp (Some v) ep tv cp.
Definition set_energy_penalty (v : Q) (s : self) : self :=
  let 'Build_self tn hn en w le lt pp pf pi pe dp te _ tv cp := s in
  Build_self tn hn en w le lt pp pf pi pe dp te (Some v) tv cp.
Definition set_total_temp_violation (v : Q) (s : self) : self :=
  let 'Build_self tn hn en w le lt pp pf pi pe dp te ep _ cp := s in
  Build_self tn hn en w le lt pp pf pi pe dp te ep (Some v) cp.
Definition set_comfort_penalty (v : Q) (s : self) : self :=
  let 'Build_self tn hn en w le lt pp pf pi pe dp te ep tv _ := s in
  Build_self tn hn en w le lt pp pf pi pe dp te ep tv (Some v).

Definition gets {A} (f : self → A) : M self A := s ← get; mret (f s).
Definition getattr (f : self → option Q) : M self Q := s ← get; attr (f s).

Definition __init__
    (temperature_variables humidity_variables energy_variables : list pyval)
    (energy_weight lambda_energy lambda_temperature : Q)
    (tarifa_json : option Tarifa.t)
    (high_price low_price : Q) : result self :=
  if negb (between 0 energy_weight 1) then Raise ValueError
  else if negb (forallb isinstance_str (temperature_variables ++ energy_variables))
  then Raise TypeError
  else
    match tarifa_json with
    | Some tarifa =>
        dias ← comprehension Tarifa.dia
                 (Tarifa.dias_punta (Tarifa.tarifa_horarios tarifa));
        Ok {| temp_names := temperature_variables;
              hum_names := humidity_variables;
              energy_names := energy_variables;
              W_energy := energy_weight;
              lambda_energy := lambda_energy;
              lambda_temp := lambda_temperature;
              precio_punta := Tarifa.punta (Tarifa.tarifa_precios tarifa);
              precio_fuera_punta := Tarifa.fuera_de_punta (Tarifa.tarifa_precios tarifa);
              punta_inicio := Tarifa.punta_inicio (Tarifa.tarifa_horarios tarifa);
              punta_fin := Tarifa.punta_fin (Tarifa.tarifa_horarios tarifa);
              dias_punta := dias;
              total_energy := None;
              energy_penalty := None;
              total_temp_violation := None;
              comfort_penalty := None |}
    | None =>
        Ok {| temp_names := temperature_variables;
              hum_names := humidity_variables;
              energy_names := energy_variables;
              W_energy := energy_weight;
              lambda_energy := lambda_energy;
              lambda_temp := lambda_temperature;
              precio_punta := high_price;
              precio_fuera_punta := low_price;
              punta_inicio := 17;
              punta_fin := 20;
              dias_punta := [0; 1; 2; 3; 4]%Z;
              total_energy := None;
              energy_penalty := None;
              total_temp_violation := None;
              comfort_penalty := None |}
    end.

Definition _get_energy_consumed (obs_dict : gmap string Q) : M self (list Q) :=
  names ← gets energy_names;
  lift (comprehension (getitem obs_dict) names).

Definition _calculate_pmv_violation (tdb rh total_energy : Q) : Q * Q :=
  let pmv := (-7.4928 + 0.2882 * tdb - 0.0020 * rh + 0.0004 * tdb * rh)%Q in
  let d := (max2 (-0.5 - pmv) 0.0 + max2 (pmv - 0.5) 0.0)%Q in
  let violation := (d + d * d)%Q in
  (pmv, violation).

(** The [for temp_var, hum_var in zip(...)] loop with its two accumulators. *)
Fixpoint _zones_loop (obs_dict : gmap string Q) (total_energy : Q)
    (pairs : list (pyval * pyval)) (violations pmv_values : list Q)
    : result (list Q * list Q) :=
  match pairs with
  | [] => Ok (violations, pmv_values)
  | (temp_var, hum_var) :: rest =>
      tdb ← getitem obs_dict temp_var;
      rh ← getitem obs_dict hum_var;
      let '(pmv, violation) := _calculate_pmv_violation tdb rh total_energy in
      _zones_loop obs_dict total_energy rest
                  (violations ++ [violation]) (pmv_values ++ [pmv])
  end.

Definition _get_temperature_violation (obs_dict : gmap string Q) (total_energy : Q)
    : M self (list Q * list Q) :=
  tn ← gets temp_names;
  hn ← gets hum_names;
  lift (_zones_loop obs_dict total_energy (zip tn hn) [] []).

(** The price selected by the [--- Energy cost ---] block. *)
Definition _price_kwh (weekday hour : Z) : M self Q :=
  fuera ← gets precio_fuera_punta;
  dias ← gets dias_punta;
  inicio ← gets punta_inicio;
  fin ← gets punta_fin;
  if bool_decide (weekday ∈ dias) && ((inicio <=? hour)%Z && (hour <=? fin)%Z)
  then gets precio_punta
  else mret fuera.

Definition __call__ (YEAR : Z) (obs_dict : gmap string Q)
    : M self (Q * gmap string Q) :=
  (* --- Datetime --- *)
  mo ← lift (getitem obs_dict (VStr "month"));
  let month := Z.max 1 (Z.min 12 (int mo)) in
  dd ← lift (getitem obs_dict (VStr "day_of_month"));
  let day := Z.max 1 (Z.min 28 (int dd)) in
  hh ← lift (getitem obs_dict (VStr "hour"));
  let hour_raw := Z.max 0 (Z.min 23 (int hh)) in
  current_dt ← lift (Datetime.new YEAR month day hour_raw);
  let weekday := Datetime.weekday current_dt in
  let hour := Datetime.hour current_dt in
  (* --- Energy cost --- *)
  price_kwh ← _price_kwh weekday hour;
  energy_values ← _get_energy_consumed obs_dict;
  _ ← modify (set_total_energy (sum energy_values));
  te ← getattr total_energy;
  _ ← modify (set_energy_penalty (- (te / 1000) * price_kwh)%Q);
  (* --- PMV comfort violation --- *)
  te1 ← getattr total_energy;
  '(temp_violations, pmv_values) ← _get_temperature_violation obs_dict te1;
  _ ← modify (set_total_temp_violation (sum temp_violations));
  tv ← getattr total_temp_violation;
  _ ← modify (set_comfort_penalty (- tv)%Q);
  (* --- Reward (paper structure) --- *)
  let avg_pmv :=
    (sum pmv_values / inject_Z (Z.max (Z.of_nat (length pmv_values)) 1))%Q in
  le ← gets lambda_energy;
  w ← gets W_energy;
  ep ← getattr energy_penalty;
  let energy_term := (le * w * ep)%Q in
  lt ← gets lambda_temp;
  cp ← getattr comfort_penalty;
  let comfort_term := (lt * (1 - w) * cp)%Q in
  let reward := (energy_term + comfort_term)%Q in
  te2 ← getattr total_energy;
  tv2 ← getattr total_temp_violation;
  let reward_terms : gmap string Q :=
    {[ "energy_term" := energy_term;
       "comfort_term" := comfort_term;
       "energy_penalty" := ep;
       "comfort_penalty" := cp;
       "total_power_demand" := te2;
       "total_temperature_violation" := tv2;
       "reward_weight" := w;
       "avg_pmv" := avg_pmv;
       "price_kwh" := price_kwh ]} in
  mret (reward, reward_terms).

End NuestroRewardMultizona.

(** ** [class NuestroRewardMultizonaPPO] *)

Module NuestroRewardMultizonaPPO.

Record self : Type := {
  temp_names : list pyval;
  hum_names : list pyval;
  energy_names : list pyval;
  W_energy : Q;
  lambda_energy : Q;
  lambda_temp : Q;
  precio_punta : Q;
  precio_fuera_punta : Q;
  punta_inicio : Z;
  punta_fin : Z;
  dias_punta : list Z;
  schedule : option (list Schedule.row);
  (* attributes created by [__call__] *)
  total_energy : option Q;
  energy_penalty : option Q;
  total_temp_violation : option Q;
  comfort_penalty : option Q
}.

Definition set_W_energy (v : Q) (s : self) : self :=
  let 'Build_self tn hn en _ le lt pp pf pi pe dp sc te ep tv cp := s in
  Build_self tn hn en v le lt pp pf pi pe dp sc te ep tv cp.
Definition set_total_energy (v : Q) (s : self) : self :=
  let 'Build_self tn hn en w le lt pp pf pi pe dp sc _ ep tv cp := s in
  Build_self tn hn en w le lt pp pf pi pe dp sc (Some v) ep tv cp.
Definition set_energy_penalty (v : Q) (s : self) : self :=
  let 'Build_self tn hn en w le lt pp pf pi pe dp sc te _ tv cp := s in
  Build_self tn hn en w le lt pp pf pi pe dp sc te (Some v) tv cp.
Definition set_total_temp_violation (v : Q) (s : self) : self :=
  let 'Build_self tn hn en w le lt pp pf pi pe dp sc te ep _ cp := s in
  Build_self tn hn en w le lt pp pf pi pe dp sc te ep (Some v) cp.
Definition set_comfort_penalty (v : Q) (s : self) : self :=
  let 'Build_self tn hn en w le lt pp pf pi pe dp sc te ep tv _ := s in
  Build_self tn hn en w le lt pp pf pi pe dp sc te ep tv (Some v).

Definition gets {A} (f : self → A) : M self A := s ← get; mret (f s).
Definition getattr (f : self → option Q) : M self Q := s ← get; attr (f s).

Definition __init__
    (temperature_variables humidity_variables energy_variables : list pyval)
    (energy_weight lambda_energy lambda_temperature : Q)
    (tarifa_json : option Tarifa.t)
    (high_price low_price : Q)
    (schedule_csv : option (list Schedule.row)) : result self :=
  if negb (between 0 energy_weight 1) then Raise ValueError
  else
    match tarifa_json with
    | Some tarifa =>
        dias ← comprehension Tarifa.dia
                 (Tarifa.dias_punta (Tarifa.tarifa_horarios tarifa));
        Ok {| temp_names := temperature_variables;
              hum_names := humidity_variables;
              energy_names := energy_variables;
              W_energy := energy_weight;
              lambda_energy := (lambda_energy * 5.0)%Q;
              lambda_temp := lambda_temperature;
              precio_punta := Tarifa.punta (Tarifa.tarifa_precios tarifa);
              precio_fuera_punta := Tarifa.fuera_de_punta (Tarifa.tarifa_precios tarifa);
              punta_inicio := Tarifa.punta_inicio (Tarifa.tarifa_horarios tarifa);
              punta_fin := Tarifa.punta_fin (Tarifa.tarifa_horarios tarifa);
              dias_punta := dias;
              schedule := schedule_csv;
              total_energy := None;
              energy_penalty := None;
              total_temp_violation := None;
              comfort_penalty := None |}
    | None =>
        Ok {| temp_names := temperature_variables;
              hum_names := humidity_variables;
              energy_names := energy_variables;
              W_energy := energy_weight;
              lambda_energy := (lambda_energy * 5.0)%Q;
              lambda_temp := lambda_temperature;
              precio_punta := high_price;
              precio_fuera_punta := low_price;
              punta_inicio := 17;
              punta_fin := 20;
              dias_punta := [0; 1; 2; 3; 4]%Z;
              schedule := schedule_csv;
              total_energy := None;
              energy_penalty := None;
              total_temp_violation := None;
              comfort_penalty := None |}
    end.

Definition _get_energy_consumed (obs_dict : gmap string Q) : M self (list Q) :=
  names ← gets energy_names;
  lift (comprehension (getitem obs_dict) names).

Definition _calculate_pmv_violation (tdb rh : Q) : Q * Q :=
  let pmv := (-7.4928 + 0.2882 * tdb - 0.0020 * rh + 0.0004 * tdb * rh)%Q in
  let d := (max2 (-0.5 - pmv) 0.0 + max2 (pmv - 0.5) 0.0)%Q in
  let violation := (d + d * d)%Q in
  (pmv, violation).

Fixpoint _zones_loop (obs_dict : gmap string Q)
    (pairs : list (pyval * pyval)) (violations pmv_values : list Q)
    : result (list Q * list Q) :=
  match pairs with
  | [] => Ok (violations, pmv_values)
  | (temp_var, hum_var) :: rest =>
      tdb ← getitem obs_dict temp_var;
      rh ← getitem obs_dict hum_var;
      let '(pmv, violation) := _calculate_pmv_violation tdb rh in
      _zones_loop obs_dict rest (violations ++ [violation]) (pmv_values ++ [pmv])
  end.

Definition _get_temperature_violation (obs_dict : gmap string Q)
    : M self (list Q * list Q) :=
  tn ← gets temp_names;
  hn ← gets hum_names;
  lift (_zones_loop obs_dict (zip tn hn) [] []).

(** The presence-schedule block of [__call__]. *)
Definition _apply_schedule (YEAR : Z) (obs_dict : gmap string Q) : M self unit :=
  sched ← gets schedule;
  match sched with
  | None => mret tt
  | Some rows =>
      mo ← lift (getitem obs_dict (VStr "month"));
      dd ← lift (getitem obs_dict (VStr "day_of_month"));
      current_date ← lift (Datetime.Timestamp YEAR (int mo) (int dd));
      hh ← lift (getitem obs_dict (VStr "hour"));
      let current_hour := int hh in
      let row := Schedule.select rows current_date current_hour in
      match row with
      | [] => mret tt
      | r0 :: _ =>
          let factor := Schedule.my_factor r0 in
          if Qeq_bool factor 0 then modify (set_W_energy 1) else mret tt
      end
  end.

(** [sum(1 for pmv in pmv_values if -0.5 <= pmv <= 0.5)] *)
Definition _zones_in_comfort (pmv_values : list Q) : Z :=
  Z.of_nat (length (List.filter (λ pmv, between (-0.5) pmv 0.5) pmv_values)).

Definition __call__ (YEAR : Z) (obs_dict : gmap string Q)
    : M self (Q * gmap string pyval) :=
  (* --- Datetime --- *)
  mo ← lift (getitem obs_dict (VStr "month"));
  let month := Z.max 1 (Z.min 12 (int mo)) in
  dd ← lift (getitem obs_dict (VStr "day_of_month"));
  let day := Z.max 1 (Z.min 28 (int dd)) in
  hh ← lift (getitem obs_dict (VStr "hour"));
  let hour_raw := Z.max 0 (Z.min 23 (int hh)) in
  current_dt ← lift (Datetime.new YEAR month day hour_raw);
  let weekday := Datetime.weekday current_dt in
  let hour := Datetime.hour current_dt in
  (* --- Energy calculation --- *)
  fuera ← gets precio_fuera_punta;
  dias ← gets dias_punta;
  inicio ← gets punta_inicio;
  fin ← gets punta_fin;
  let is_peak :=
    bool_decide (weekday ∈ dias) && ((inicio <=? hour)%Z && (hour <=? fin)%Z) in
  price_kwh ← (if is_peak then gets precio_punta else mret fuera);
  energy_values ← _get_energy_consumed obs_dict;
  _ ← modify (set_total_energy (sum energy_values));
  te ← getattr total_energy;
  _ ← modify (set_energy_penalty (- (te / 1000) * price_kwh)%Q);
  (* --- PPO: Peak multiplier 15x --- *)
  _ ← (if is_peak
       then ep ← getattr energy_penalty; modify (set_energy_penalty (ep * 15.0)%Q)
       else mret tt);
  (* --- PPO: Flat peak penalty --- *)
  te1 ← getattr total_energy;
  let flat_peak_penalty :=
    if is_peak && negb (Qle_bool te1 0) then (-500.0)%Q else 0.0%Q in
  (* --- Comfort violation --- *)
  '(temp_violations, pmv_values) ← _get_temperature_violation obs_dict;
  _ ← modify (set_total_temp_violation (sum temp_violations));
  tv ← getattr total_temp_violation;
  _ ← modify (set_comfort_penalty (- tv)%Q);
  (* --- Waste factor --- *)
  let avg_pmv :=
    (sum pmv_values / inject_Z (Z.max (Z.of_nat (length pmv_values)) 1))%Q in
  te2 ← getattr total_energy;
  waste_factor ←
    (if negb (Qle_bool te2 0) && negb (Qle_bool avg_pmv (-0.5))
     then
       let excess := (avg_pmv + 0.5)%Q in
       let wf := (1.0 + 150.0 * (excess ^ 2))%Q in
       ep ← getattr energy_penalty;
       _ ← modify (set_energy_penalty (ep * wf)%Q);
       mret wf
     else mret 1.0%Q);
  (* --- Schedule de presencia --- *)
  _ ← _apply_schedule YEAR obs_dict;
  (* --- PPO: Comfort bonus --- *)
  let zones_in_comfort := _zones_in_comfort pmv_values in
  let comfort_bonus :=
    if (2 <=? zones_in_comfort)%Z then 40.0%Q
    else if (zones_in_comfort =? 1)%Z then 8.0%Q
    else 0.0%Q in
  (* --- Final reward --- *)
  le ← gets lambda_energy;
  w ← gets W_energy;
  ep ← getattr energy_penalty;
  let energy_term := (le * w * ep)%Q in
  lt ← gets lambda_temp;
  cp ← getattr comfort_penalty;
  let comfort_term := (lt * (1 - w) * cp)%Q in
  let reward := (energy_term + comfort_term + comfort_bonus + flat_peak_penalty)%Q in
  te3 ← getattr total_energy;
  tv3 ← getattr total_temp_violation;
  let reward_terms : gmap string pyval :=
    {[ "energy_term" := VNum energy_term;
       "comfort_term" := VNum comfort_term;
       "comfort_bonus" := VNum comfort_bonus;
       "flat_peak_penalty" := VNum flat_peak_penalty;
       "energy_penalty" := VNum ep;
       "comfort_penalty" := VNum cp;
       "total_power_demand" := VNum te3;
       "total_temperature_violation" := VNum tv3;
       "reward_weight" := VNum w;
       "avg_pmv" := VNum avg_pmv;
       "waste_factor" := VNum waste_factor;
       "is_peak" := VBool is_peak ]} in
  mret (reward, reward_terms).

End NuestroRewardMultizonaPPO.

(** ** [PyEnvProduction._get_observation_api] *)

Module PyEnvProduction.

(** A value of the JSON object returned by [response.json()]. *)
Inductive json : Type :=
| JNum (q : Q)
| JStr (s : string)
| JBool (b : bool)
| JNull
| JArray
| JObject.

(** The keys of [self.api_config] read by the observation path. *)
Record api_config_t : Type := {
  observation_endpoint : option string;
  field_mapping : option (gmap string string)
}.

Record self : Type := {
  variable_names : list string;
  api_config : api_config_t
}.

(** What the method returns: the vector built from the response, or the
    result of [self._get_observation_simulated()]. *)
Inductive observation : Type :=
| FromApi (values : list Q)
| Simulated.

Section Api.

(** [float(s)] on a string, and the rounding of [np.float32]. *)
Variable float_of_string : string → option Q.
Variable float32 : Q → Q.

(** [float(v)] *)
Definition float (v : json) : result Q :=
  match v with
  | JNum q => Ok q
  | JStr s =>
      match float_of_string s with Some q => Ok q | None => Raise ValueError end
  | JBool b => Ok (if b then 1 else 0)%Q
  | JNull | JArray | JObject => Raise TypeError
  end.

(** [self.api_config.get('field_mapping', {})] *)
Definition _field_mapping (cfg : api_config_t) : gmap string string :=
  match field_mapping cfg with Some m => m | None => ∅ end.

(** One iteration of [for var_name in self.variable_names]. *)
Definition _map_step (cfg : api_config_t) (data : gmap string json)
    (var_name : string) (values : list Q) : result (list Q) :=
  match data !! var_name with
  | Some v => x ← float v; mret (values ++ [x])
  | None =>
      let mapping := _field_mapping cfg in
      match mapping !! var_name with
      | Some mapped_field =>
          match data !! mapped_field with
          | Some v => x ← float v; mret (values ++ [x])
          | None => mret (values ++ [0.0%Q])
          end
      | None => mret (values ++ [0.0%Q])
      end
  end.

Fixpoint _map_loop (cfg : api_config_t) (data : gmap string json)
    (names : list string) (values : list Q) : result (list Q) :=
  match names with
  | [] => Ok values
  | var_name :: rest =>
      values' ← _map_step cfg data var_name values;
      _map_loop cfg data rest values'
  end.

(** [response] is the outcome of [requests.get(endpoint, timeout=5).json()]. *)
Definition _get_observation_api (s : self)
    (response : string → result (gmap string json)) : observation :=
  let endpoint :=
    match observation_endpoint (api_config s) with Some e => e | None => "" end in
  if String.eqb endpoint "" then Simulated
  else
    match (data ← response endpoint;
           _map_loop (api_config s) data (variable_names s) []) with
    | Ok values => FromApi (map float32 values)
    | Raise _ => Simulated
    end.

End Api.

End PyEnvProduction.

(** ** The formulas of the specification, for comparison with the code *)

Module Spec.

(** [PMV = -7.4928 + 0.2882*T - 0.0020*RH + 0.0004*T*RH] *)
Definition pmv_regression (T RH : Q) : Q :=
  (-7.4928 + 0.2882 * T - 0.0020 * RH + 0.0004 * T * RH)%Q.

(** [d = max(-0.5 - PMV, 0) + max(PMV - 0.5, 0)] *)
Definition band_distance (pmv : Q) : Q :=
  (Qmax (-0.5 - pmv) 0 + Qmax (pmv - 0.5) 0)%Q.

(** [violation = d + d²] *)
Definition hybrid_violation (pmv : Q) : Q :=
  (band_distance pmv + band_distance pmv ^ 2)%Q.

(** The comfort-band violation [max(-0.5 - PMV, 0, PMV - 0.5)]. *)
Definition band_violation (pmv : Q) : Q :=
  Qmax (Qmax (-0.5 - pmv) 0) (pmv - 0.5).

(** Peak price when the weekday is a peak day and [start <= hour <= stop],
    off-peak price otherwise. *)
Definition price_at (peak_days : list Z) (start stop : Z) (peak off_peak : Q)
    (weekday hour : Z) : Q :=
  if bool_decide (weekday ∈ peak_days ∧ (start ≤ hour)%Z ∧ (hour ≤ stop)%Z)
  then peak else off_peak.

(** Calendar context of a step: month clamped to [1,12], day to [1,28], hour
    to [0,23]. *)
Definition clamp (lo hi x : Z) : Z := Z.max lo (Z.min hi x).

Definition calendar (YEAR : Z) (month day hour : Q) : Datetime.datetime :=
  {| Datetime.year := YEAR;
     Datetime.month := clamp 1 12 (int month);
     Datetime.day := clamp 1 28 (int day);
     Datetime.hour := clamp 0 23 (int hour) |}.

(** An observation holds a reading for every name of a list. *)
Definition has_keys (obs_dict : gmap string Q) (names : list pyval) : Prop :=
  Forall (λ v, ∃ q, getitem obs_dict v = Ok q) names.

(** The breakdown dictionary returned by [NuestroRewardMultizona.__call__]. *)
Definition multizona_terms
    (energy_term comfort_term energy_penalty comfort_penalty total_power_demand
     total_temperature_violation reward_weight avg_pmv price_kwh : Q)
    : gmap string Q :=
  {[ "energy_term" := energy_term;
     "comfort_term" := comfort_term;
     "energy_penalty" := energy_penalty;
     "comfort_penalty" := comfort_penalty;
     "total_power_demand" := total_power_demand;
     "total_temperature_violation" := total_temperature_violation;
     "reward_weight" := reward_weight;
     "avg_pmv" := avg_pmv;
     "price_kwh" := price_kwh ]}.

(** The reading the production adapter stores for one variable: the field of
    that name, else the mapped field, else [0.0]. *)
Definition api_reading (float_of_string : string → option Q)
    (cfg : PyEnvProduction.api_config_t) (data : gmap string PyEnvProduction.json)
    (var_name : string) : result Q :=
  match data !! var_name with
  | Some v => PyEnvProduction.float float_of_string v
  | None =>
      match PyEnvProduction._field_mapping cfg !! var_name with
      | Some mapped_field =>
          match data !! mapped_field with
          | Some v => PyEnvProduction.float float_of_string v
          | None => Ok 0.0%Q
          end
      | None => Ok 0.0%Q
      end
  end.

(** [resolve_weight(default_weight, schedule_lookup(date, hour))] *)
Definition resolve_weight (default_weight : Q) (multiplier : option Q) : Q :=
  match multiplier with
  | Some f => if Qeq_bool f 0 then 1%Q else default_weight
  | None => default_weight
  end.

End Spec.

(** ** Concrete engines and observations *)

Module Examples.

(** Reference year of the end-to-end scenario: 15 January is a Monday. *)
Definition YEAR : Z := 2024.

(** [NuestroRewardMultizona(['east_temp'], ['east_rh'], ['heat_pump_power'],
    energy_weight=0.5, lambda_energy=1, lambda_temperature=30,
    high_price=10.0, low_price=4.0)] *)
Definition multizona : NuestroRewardMultizona.self :=
  {| NuestroRewardMultizona.temp_names := [VStr "east_temp"];
     NuestroRewardMultizona.hum_names := [VStr "east_rh"];
     NuestroRewardMultizona.energy_names := [VStr "heat_pump_power"];
     NuestroRewardMultizona.W_energy := 0.5;
     NuestroRewardMultizona.lambda_energy := 1;
     NuestroRewardMultizona.lambda_temp := 30;
     NuestroRewardMultizona.precio_punta := 10.0;
     NuestroRewardMultizona.precio_fuera_punta := 4.0;
     NuestroRewardMultizona.punta_inicio := 17;
     NuestroRewardMultizona.punta_fin := 20;
     NuestroRewardMultizona.dias_punta := [0; 1; 2; 3; 4]%Z;
     NuestroRewardMultizona.total_energy := None;
     NuestroRewardMultizona.energy_penalty := None;
     NuestroRewardMultizona.total_temp_violation := None;
     NuestroRewardMultizona.comfort_penalty := None |}.

Definition observation (day hour tdb rh power : Q) : gmap string Q :=
  {[ "month" := 1%Q; "day_of_month" := day; "hour" := hour;
     "east_temp" := tdb; "east_rh" := rh; "heat_pump_power" := power ]}.

(** Monday 15 January, 18h. *)
Definition obs_monday_18 : gmap string Q := observation 15 18 22.0 45.0 2000.0.
(** Saturday 20 January, 18h. *)
Definition obs_saturday_18 : gmap string Q := observation 20 18 22.0 45.0 2000.0.
(** Monday 15 January, 16h. *)
Definition obs_monday_16 : gmap string Q := observation 15 16 22.0 45.0 2000.0.
(** Monday 15 January, 19h. *)
Definition obs_monday_19 : gmap string Q := observation 15 19 22.0 45.0 2000.0.
(** A hot zone ([PMV = 1.0]) with the heat pump off. *)
Definition obs_hot_idle : gmap string Q := observation 15 18 (42464 # 1441) 0 0.

(** Two temperature variables against one humidity variable. *)
Definition mismatched_temperature : list pyval := [VStr "east_temp"; VStr "west_temp"].
Definition mismatched_humidity : list pyval := [VStr "east_rh"].

(** A presence schedule whose only row marks Monday 15 January, 18h as
    unoccupied. *)
Definition presence : list Schedule.row :=
  [ {| Schedule.date := (YEAR, 1, 15)%Z; Schedule.hour := 18; Schedule.my_factor := 0 |} ].

Definition multizona_mismatched : NuestroRewardMultizona.self :=
  {| NuestroRewardMultizona.temp_names := mismatched_temperature;
     NuestroRewardMultizona.hum_names := mismatched_humidity;
     NuestroRewardMultizona.energy_names := [VStr "heat_pump_power"];
     NuestroRewardMultizona.W_energy := 0.5;
     NuestroRewardMultizona.lambda_energy := 1;
     NuestroRewardMultizona.lambda_temp := 30;
     NuestroRewardMultizona.precio_punta := 10.0;
     NuestroRewardMultizona.precio_fuera_punta := 4.0;
     NuestroRewardMultizona.punta_inicio := 17;
     NuestroRewardMultizona.punta_fin := 20;
     NuestroRewardMultizona.dias_punta := [0; 1; 2; 3; 4]%Z;
     NuestroRewardMultizona.total_energy := None;
     NuestroRewardMultizona.energy_penalty := None;
     NuestroRewardMultizona.total_temp_violation := None;
     NuestroRewardMultizona.comfort_penalty := None |}.

(** [NuestroReward(['east_temp', 'east_rh'], ['heat_pump_power'],
    energy_weight=0.5, high_price=10.0, low_price=4.0, schedule_csv=...)] *)
Definition nuestro : NuestroReward.self :=
  {| NuestroReward.temp_names := [VStr "east_temp"; VStr "east_rh"];
     NuestroReward.energy_names := [VStr "heat_pump_power"];
     NuestroReward.W_energy := 0.5;
     NuestroReward.lambda_energy := 1.0;
     NuestroReward.lambda_temp := 1.0;
     NuestroReward.low_price := 4.0;
     NuestroReward.high_price := 10.0;
     NuestroReward.schedule := Some presence;
     NuestroReward.total_energy := None;
     NuestroReward.energy_penalty := None;
     NuestroReward.total_temp_violation := None;
     NuestroReward.comfort_penalty := None |}.

(** [NuestroRewardMultizonaPPO(['east_temp'], ['east_rh'], ['heat_pump_power'],
    energy_weight=0.5, high_price=10.0, low_price=4.0, schedule_csv=...)] *)
Definition ppo : NuestroRewardMultizonaPPO.self :=
  {| NuestroRewardMultizonaPPO.temp_names := [VStr "east_temp"];
     NuestroRewardMultizonaPPO.hum_names := [VStr "east_rh"];
     NuestroRewardMultizonaPPO.energy_names := [VStr "heat_pump_power"];
     NuestroRewardMultizonaPPO.W_energy := 0.5;
     NuestroRewardMultizonaPPO.lambda_energy := 1.0 * 5.0;
     NuestroRewardMultizonaPPO.lambda_temp := 1.0;
     NuestroRewardMultizonaPPO.precio_punta := 10.0;
     NuestroRewardMultizonaPPO.precio_fuera_punta := 4.0;
     NuestroRewardMultizonaPPO.punta_inicio := 17;
     NuestroRewardMultizonaPPO.punta_fin := 20;
     NuestroRewardMultizonaPPO.dias_punta := [0; 1; 2; 3; 4]%Z;
     NuestroRewardMultizonaPPO.schedule := Some presence;
     NuestroRewardMultizonaPPO.total_energy := None;
     NuestroRewardMultizonaPPO.energy_penalty := None;
     NuestroRewardMultizonaPPO.total_temp_violation := None;
     NuestroRewardMultizonaPPO.comfort_penalty := None |}.

(** Runs [__call__] on each observation in turn, on the same instance, and
    collects the ['reward_weight'] entries reported. *)
Fixpoint nuestro_weights (obs_seq : list (gmap string Q)) (s : NuestroReward.self)
    : list (option Q) :=
  match obs_seq with
  | [] => []
  | obs :: rest =>
      match NuestroReward.__call__ YEAR obs s with
      | (Ok (_, terms), s') => terms !! "reward_weight" :: nuestro_weights rest s'
      | (Raise _, s') => None :: nuestro_weights rest s'
      end
  end.

Fixpoint ppo_weights (obs_seq : list (gmap string Q))
    (s : NuestroRewardMultizonaPPO.self) : list (option pyval) :=
  match obs_seq with
  | [] => []
  | obs :: rest =>
      match NuestroRewardMultizonaPPO.__call__ YEAR obs s with
      | (Ok (_, terms), s') => terms !! "reward_weight" :: ppo_weights rest s'
      | (Raise _, s') => None :: ppo_weights rest s'
      end
  end.

(** The production adapter: three variables, one of them mapped to a field
    the response does not carry, one neither returned nor mapped. *)
Definition adapter : PyEnvProduction.self :=
  {| PyEnvProduction.variable_names := ["east_temp"; "east_rh"; "co2"];
     PyEnvProduction.api_config :=
       {| PyEnvProduction.observation_endpoint := Some "http://sensors/observation";
          PyEnvProduction.field_mapping := Some {[ "east_rh" := "humidity" ]} |} |}.

Definition api_data : gmap string PyEnvProduction.json :=
  {[ "east_temp" := PyEnvProduction.JNum 21.5 ]}.

Definition api_response (endpoint : string)
    : result (gmap string PyEnvProduction.json) := Ok api_data.

End Examples.

(** * Properties of the embedding *)

Local Open Scope Q_scope.

Module MZ := NuestroRewardMultizona.
Module PPO := NuestroRewardMultizonaPPO.
Module PE := PyEnvProduction.

(** ** Builtins and calendar *)

Lemma max2_Qmax (a b : Q) : max2 a b == Qmax a b.
Proof.
  unfold max2. destruct (Qlt_le_dec a b) as [Hlt | Hle].
  - symmetry. apply Q.max_r. lra.
  - symmetry. apply Q.max_l. lra.
Qed.

Lemma max2_ge_l (a b : Q) : a <= max2 a b.
Proof. unfold max2. destruct (Qlt_le_dec a b); lra. Qed.

Lemma max2_ge_r (a b : Q) : b <= max2 a b.
Proof. unfold max2. destruct (Qlt_le_dec a b); lra. Qed.

Lemma max2_lub (a b c : Q) : a <= c → b <= c → max2 a b <= c.
Proof. intros Ha Hb. unfold max2. destruct (Qlt_le_dec a b); assumption. Qed.

Lemma getitem_Some (obs : gmap string Q) (k : string) (v : Q) :
  obs !! k = Some v → getitem obs (VStr k) = Ok v.
Proof. intros H. unfold getitem. by rewrite H. Qed.

Lemma comprehension_ok {A B} (f : A → result B) (l : list A) :
  Forall (λ v, ∃ x, f v = Ok x) l →
  ∃ xs, comprehension f l = Ok xs ∧ Forall2 (λ v x, f v = Ok x) l xs.
Proof.
  induction 1 as [| v l [x Hx] _ [xs [Hxs HF]]].
  - exists []. split; [reflexivity | constructor].
  - exists (x :: xs). split.
    + simpl. rewrite Hx. simpl. rewrite Hxs. reflexivity.
    + constructor; assumption.
Qed.

Lemma days_in_month_ge_28 (y m : Z) :
  (1 ≤ m ≤ 12)%Z → (28 ≤ Datetime._days_in_month y m)%Z.
Proof.
  intros Hm. unfold Datetime._days_in_month.
  destruct ((m =? 2)%Z && Datetime._is_leap y); [lia |].
  assert (m = 1 ∨ m = 2 ∨ m = 3 ∨ m = 4 ∨ m = 5 ∨ m = 6 ∨ m = 7 ∨ m = 8
          ∨ m = 9 ∨ m = 10 ∨ m = 11 ∨ m = 12)%Z as Hd by lia.
  repeat (destruct Hd as [-> | Hd]; [simpl; lia |]).
  subst m. simpl. lia.
Qed.

Lemma datetime_new_clamped (YEAR : Z) (mo dd hh : Q) :
  (Datetime.MINYEAR ≤ YEAR ≤ Datetime.MAXYEAR)%Z →
  Datetime.new YEAR (Z.max 1 (Z.min 12 (int mo))) (Z.max 1 (Z.min 28 (int dd)))
               (Z.max 0 (Z.min 23 (int hh)))
  = Ok (Spec.calendar YEAR mo dd hh).
Proof.
  intros [Hlo Hhi]. unfold Datetime.new.
  assert (Hm : (1 ≤ Z.max 1 (Z.min 12 (int mo)) ≤ 12)%Z) by lia.
  pose proof (days_in_month_ge_28 YEAR _ Hm) as Hd.
  assert (Hc : Datetime._check_date_fields YEAR (Z.max 1 (Z.min 12 (int mo)))
                 (Z.max 1 (Z.min 28 (int dd))) = true).
  { unfold Datetime._check_date_fields.
    repeat (apply andb_true_intro; split); apply Z.leb_le; lia. }
  assert (Ht : Datetime._check_time_fields (Z.max 0 (Z.min 23 (int hh))) = true).
  { unfold Datetime._check_time_fields.
    apply andb_true_intro; split; apply Z.leb_le; lia. }
  rewrite Hc, Ht. reflexivity.
Qed.

(** ** NuestroRewardMultizona: one evaluation *)

Lemma MZ_zones_loop_ok (obs : gmap string Q) (e : Q) (pairs : list (pyval * pyval))
    (vs ps : list Q) :
  Forall (λ p, (∃ q, getitem obs p.1 = Ok q) ∧ (∃ q, getitem obs p.2 = Ok q)) pairs →
  ∃ zs : list (Q * Q),
    Forall2 (λ p z, getitem obs p.1 = Ok z.1 ∧ getitem obs p.2 = Ok z.2) pairs zs
    ∧ MZ._zones_loop obs e pairs vs ps
      = Ok (vs ++ map (λ z, (MZ._calculate_pmv_violation z.1 z.2 e).2) zs,
            ps ++ map (λ z, (MZ._calculate_pmv_violation z.1 z.2 e).1) zs).
Proof.
  intros HF. revert vs ps.
  induction HF as [| [tv hv] pairs [[t Ht] [h Hh]] _ IH]; intros vs ps.
  - exists []. split; [constructor |]. simpl. by rewrite !app_nil_r.
  - simpl in Ht, Hh.
    destruct (IH (vs ++ [(MZ._calculate_pmv_violation t h e).2])
                 (ps ++ [(MZ._calculate_pmv_violation t h e).1]))
      as [zs [HF2 Hloop]].
    exists ((t, h) :: zs). split.
    + constructor; [split; assumption | assumption].
    + cbn [MZ._zones_loop]. rewrite Ht. cbn [mbind result_bind]. rewrite Hh.
      cbn [mbind result_bind].
      change (MZ._calculate_pmv_violation t h e)
        with ((MZ._calculate_pmv_violation t h e).1,
              (MZ._calculate_pmv_violation t h e).2) at 1.
      cbv beta iota. rewrite Hloop. cbn [map fst snd].
      by rewrite <- !app_assoc.
Qed.

Lemma zip_has_keys (obs : gmap string Q) (tn hn : list pyval) :
  Spec.has_keys obs tn → Spec.has_keys obs hn →
  Forall (λ p, (∃ q, getitem obs p.1 = Ok q) ∧ (∃ q, getitem obs p.2 = Ok q))
         (zip tn hn).
Proof.
  intros Ht. revert hn.
  induction Ht as [| t tn Ht _ IH]; intros hn Hh; [constructor |].
  destruct Hh as [| h hn Hh Hhn]; [constructor |].
  simpl. constructor; [split; assumption | apply IH; assumption].
Qed.

Lemma MZ_price_kwh (s : MZ.self) (weekday hour : Z) :
  MZ._price_kwh weekday hour s
  = (Ok (Spec.price_at (MZ.dias_punta s) (MZ.punta_inicio s) (MZ.punta_fin s)
                       (MZ.precio_punta s) (MZ.precio_fuera_punta s) weekday hour),
     s).
Proof.
  unfold MZ._price_kwh, Spec.price_at, MZ.gets.
  cbv [mbind mret M_bind M_ret get].
  destruct (bool_decide (weekday ∈ MZ.dias_punta s)) eqn:Hd.
  - apply bool_decide_eq_true in Hd.
    destruct (MZ.punta_inicio s <=? hour)%Z eqn:Hi;
      destruct (hour <=? MZ.punta_fin s)%Z eqn:Hf; simpl;
      [ rewrite bool_decide_eq_true_2; [reflexivity | split; [done | lia]]
      | rewrite bool_decide_eq_false_2; [reflexivity | lia] .. ].
  - apply bool_decide_eq_false in Hd. simpl.
    rewrite bool_decide_eq_false_2; [reflexivity | tauto].
Qed.

Lemma MZ_call_spec (YEAR : Z) (obs : gmap string Q) (s : MZ.self)
    (mo dd hh : Q) (evs vs ps : list Q) :
  (Datetime.MINYEAR ≤ YEAR ≤ Datetime.MAXYEAR)%Z →
  obs !! "month" = Some mo →
  obs !! "day_of_month" = Some dd →
  obs !! "hour" = Some hh →
  comprehension (getitem obs) (MZ.energy_names s) = Ok evs →
  MZ._zones_loop obs (sum evs) (zip (MZ.temp_names s) (MZ.hum_names s)) [] []
  = Ok (vs, ps) →
  let dt := Spec.calendar YEAR mo dd hh in
  let price :=
    Spec.price_at (MZ.dias_punta s) (MZ.punta_inicio s) (MZ.punta_fin s)
                  (MZ.precio_punta s) (MZ.precio_fuera_punta s)
                  (Datetime.weekday dt) (Datetime.hour dt) in
  let ep := - (sum evs / 1000) * price in
  let cp := - sum vs in
  let energy_term := MZ.lambda_energy s * MZ.W_energy s * ep in
  let comfort_term := MZ.lambda_temp s * (1 - MZ.W_energy s) * cp in
  MZ.__call__ YEAR obs s
  = (Ok (energy_term + comfort_term,
         Spec.multizona_terms energy_term comfort_term ep cp (sum evs) (sum vs) (MZ.W_energy s)
                  (sum ps / inject_Z (Z.max (Z.of_nat (length ps)) 1)) price),
     MZ.set_comfort_penalty cp
       (MZ.set_total_temp_violation (sum vs)
          (MZ.set_energy_penalty ep (MZ.set_total_energy (sum evs) s)))).
Proof.
  intros HY Hmo Hdd Hhh Hev Hz. intros.
  unfold MZ.__call__, MZ._get_energy_consumed, MZ._get_temperature_violation.
  rewrite (getitem_Some _ _ _ Hmo), (getitem_Some _ _ _ Hdd), (getitem_Some _ _ _ Hhh).
  cbv [lift mbind M_bind].
  rewrite (datetime_new_clamped YEAR mo dd hh HY).
  rewrite MZ_price_kwh.
  destruct s. cbn [MZ.energy_names MZ.temp_names MZ.hum_names] in *.
  cbv [MZ.gets MZ.getattr attr get modify mbind mret M_bind M_ret lift].
  cbn [MZ.energy_names MZ.temp_names MZ.hum_names].
  rewrite Hev.
  cbn [MZ.set_total_energy MZ.set_energy_penalty MZ.total_energy
       MZ.temp_names MZ.hum_names].
  rewrite Hz. reflexivity.
Qed.

Lemma MZ_terms_lookup (energy_term comfort_term ep cp te tv w avg_pmv price_kwh : Q) :
  let terms := Spec.multizona_terms energy_term comfort_term ep cp te tv w avg_pmv price_kwh in
  terms !! "energy_term" = Some energy_term
  ∧ terms !! "comfort_term" = Some comfort_term
  ∧ terms !! "energy_penalty" = Some ep
  ∧ terms !! "comfort_penalty" = Some cp
  ∧ terms !! "total_power_demand" = Some te
  ∧ terms !! "total_temperature_violation" = Some tv
  ∧ terms !! "reward_weight" = Some w
  ∧ terms !! "avg_pmv" = Some avg_pmv
  ∧ terms !! "price_kwh" = Some price_kwh.
Proof. cbv zeta. unfold Spec.multizona_terms. repeat split; by simplify_map_eq. Qed.

(** An observation that holds every configured variable lets the two
    reading loops of [__call__] run to their end. *)
Lemma MZ_call_total (obs : gmap string Q) (s : MZ.self) :
  Spec.has_keys obs (MZ.temp_names s) →
  Spec.has_keys obs (MZ.hum_names s) →
  Spec.has_keys obs (MZ.energy_names s) →
  ∃ (evs vs ps : list Q),
    Forall2 (λ v x, getitem obs v = Ok x) (MZ.energy_names s) evs
    ∧ comprehension (getitem obs) (MZ.energy_names s) = Ok evs
    ∧ MZ._zones_loop obs (sum evs) (zip (MZ.temp_names s) (MZ.hum_names s)) [] []
      = Ok (vs, ps).
Proof.
  intros Ht Hh He.
  destruct (comprehension_ok _ _ He) as [evs [Hev HF]].
  destruct (MZ_zones_loop_ok obs (sum evs) _ [] [] (zip_has_keys _ _ _ Ht Hh))
    as [zs [_ Hz]].
  eauto 10.
Qed.

(** C2. The price applied to the energy term is the peak price exactly when the
    weekday of the clamped date is a configured peak day and
    [punta_inicio <= hour <= punta_fin], both ends included; otherwise it is the
    off-peak price. With window [17,20] on Monday..Friday: Monday 18h is peak,
    Saturday 18h and Monday 16h are off-peak. *)
Theorem C2_tariff_selection
    (YEAR : Z) (obs : gmap string Q) (s : MZ.self) (mo dd hh : Q) :
  (Datetime.MINYEAR ≤ YEAR ≤ Datetime.MAXYEAR)%Z →
  obs !! "month" = Some mo →
  obs !! "day_of_month" = Some dd →
  obs !! "hour" = Some hh →
  Spec.has_keys obs (MZ.temp_names s) →
  Spec.has_keys obs (MZ.hum_names s) →
  Spec.has_keys obs (MZ.energy_names s) →
  let dt := Spec.calendar YEAR mo dd hh in
  let weekday := Datetime.weekday dt in
  let hour := Datetime.hour dt in
  ∃ reward terms s' price total,
    MZ.__call__ YEAR obs s = (Ok (reward, terms), s')
    ∧ terms !! "price_kwh" = Some price
    ∧ terms !! "total_power_demand" = Some total
    ∧ terms !! "energy_penalty" = Some (- (total / 1000) * price)
    ∧ (weekday ∈ MZ.dias_punta s
       ∧ (MZ.punta_inicio s ≤ hour)%Z ∧ (hour ≤ MZ.punta_fin s)%Z →
       price = MZ.precio_punta s)
    ∧ (¬ (weekday ∈ MZ.dias_punta s
          ∧ (MZ.punta_inicio s ≤ hour)%Z ∧ (hour ≤ MZ.punta_fin s)%Z) →
       price = MZ.precio_fuera_punta s)
    ∧ (MZ.punta_inicio s = 17%Z → MZ.punta_fin s = 20%Z →
       MZ.dias_punta s = [0; 1; 2; 3; 4]%Z →
       (weekday = 0%Z → hour = 18%Z → price = MZ.precio_punta s)
       ∧ (weekday = 5%Z → hour = 18%Z → price = MZ.precio_fuera_punta s)
       ∧ (weekday = 0%Z → hour = 16%Z → price = MZ.precio_fuera_punta s)).
Proof.
  intros HY Hmo Hdd Hhh Ht Hh He dt weekday hour.
  destruct (MZ_call_total obs s Ht Hh He)
    as (evs & vs & ps & _ & Hev & Hz).
  pose proof (MZ_call_spec YEAR obs s mo dd hh evs vs ps HY Hmo Hdd Hhh Hev Hz)
    as Hcall.
  cbv zeta in Hcall. fold dt weekday hour in Hcall.
  set (price := Spec.price_at _ _ _ _ _ _ _) in Hcall.
  eexists _, _, _, price, (sum evs). split; [exact Hcall |].
  pose proof (MZ_terms_lookup
                (MZ.lambda_energy s * MZ.W_energy s * (- (sum evs / 1000) * price))
                (MZ.lambda_temp s * (1 - MZ.W_energy s) * - sum vs)
                (- (sum evs / 1000) * price) (- sum vs) (sum evs) (sum vs)
                (MZ.W_energy s)
                (sum ps / inject_Z (Z.max (Z.of_nat (length ps)) 1)) price)
    as (_ & _ & Hep & _ & Hte & _ & _ & _ & Hpr).
  split; [exact Hpr |]. split; [exact Hte |]. split; [exact Hep |].
  assert (Hpeak : weekday ∈ MZ.dias_punta s
                  ∧ (MZ.punta_inicio s ≤ hour)%Z ∧ (hour ≤ MZ.punta_fin s)%Z →
                  price = MZ.precio_punta s).
  { intros Hc. subst price. unfold Spec.price_at.
    by rewrite bool_decide_eq_true_2. }
  assert (Hoff : ¬ (weekday ∈ MZ.dias_punta s
                    ∧ (MZ.punta_inicio s ≤ hour)%Z ∧ (hour ≤ MZ.punta_fin s)%Z) →
                 price = MZ.precio_fuera_punta s).
  { intros Hc. subst price. unfold Spec.price_at.
    by rewrite bool_decide_eq_false_2. }
  split; [exact Hpeak |]. split; [exact Hoff |].
  intros Hi Hf Hd. rewrite Hi, Hf, Hd in Hpeak, Hoff.
  split; [| split]; intros Hw Hhr.
  - apply Hpeak. rewrite Hw, Hhr. split; [apply elem_of_cons; by left | lia].
  - apply Hoff. rewrite Hw, Hhr. intros [Hin _].
    repeat (apply elem_of_cons in Hin as [Hin | Hin]; [discriminate |]).
    inversion Hin.
  - apply Hoff. rewrite Hw, Hhr. intros [_ [Hlo _]]. lia.
Qed.

Ltac keys_present := repeat constructor; eexists; reflexivity.

Lemma example_year_valid :
  (Datetime.MINYEAR ≤ Examples.YEAR ≤ Datetime.MAXYEAR)%Z.
Proof. vm_compute. split; discriminate. Qed.

Lemma C2_tariff_selection_witness :
  ((Datetime.MINYEAR ≤ Examples.YEAR ≤ Datetime.MAXYEAR)%Z
   ∧ Examples.obs_monday_18 !! "month" = Some 1
   ∧ Examples.obs_monday_18 !! "day_of_month" = Some 15
   ∧ Examples.obs_monday_18 !! "hour" = Some 18
   ∧ Spec.has_keys Examples.obs_monday_18 (MZ.temp_names Examples.multizona)
   ∧ Spec.has_keys Examples.obs_monday_18 (MZ.hum_names Examples.multizona)
   ∧ Spec.has_keys Examples.obs_monday_18 (MZ.energy_names Examples.multizona))
  ∧ (∃ reward terms s',
       MZ.__call__ Examples.YEAR Examples.obs_monday_18 Examples.multizona
       = (Ok (reward, terms), s')
       ∧ terms !! "price_kwh" = Some 10.0)
  ∧ (∃ reward terms s',
       MZ.__call__ Examples.YEAR Examples.obs_saturday_18 Examples.multizona
       = (Ok (reward, terms), s')
       ∧ terms !! "price_kwh" = Some 4.0)
  ∧ (∃ reward terms s',
       MZ.__call__ Examples.YEAR Examples.obs_monday_16 Examples.multizona
       = (Ok (reward, terms), s')
       ∧ terms !! "price_kwh" = Some 4.0).
Proof.
  assert (Ht : ∀ d h, Spec.has_keys (Examples.observation d h 22.0 45.0 2000.0)
                        (MZ.temp_names Examples.multizona)) by (intros; keys_present).
  assert (Hh : ∀ d h, Spec.has_keys (Examples.observation d h 22.0 45.0 2000.0)
                        (MZ.hum_names Examples.multizona)) by (intros; keys_present).
  assert (He : ∀ d h, Spec.has_keys (Examples.observation d h 22.0 45.0 2000.0)
                        (MZ.energy_names Examples.multizona)) by (intros; keys_present).
  split; [| split; [| split]].
  - repeat split; first [reflexivity | apply example_year_valid | apply Ht | apply Hh | apply He].
  - destruct (C2_tariff_selection Examples.YEAR Examples.obs_monday_18
                Examples.multizona 1 15 18 example_year_valid eq_refl eq_refl eq_refl
                (Ht 15 18) (Hh 15 18) (He 15 18))
      as (r & t & s' & price & total & Hcall & Hpr & _ & _ & _ & _ & Hex).
    destruct (Hex eq_refl eq_refl eq_refl) as (Hmon & _ & _).
    exists r, t, s'. split; [exact Hcall |].
    rewrite Hpr. f_equal. apply Hmon; reflexivity.
  - destruct (C2_tariff_selection Examples.YEAR Examples.obs_saturday_18
                Examples.multizona 1 20 18 example_year_valid eq_refl eq_refl eq_refl
                (Ht 20 18) (Hh 20 18) (He 20 18))
      as (r & t & s' & price & total & Hcall & Hpr & _ & _ & _ & _ & Hex).
    destruct (Hex eq_refl eq_refl eq_refl) as (_ & Hsat & _).
    exists r, t, s'. split; [exact Hcall |].
    rewrite Hpr. f_equal. apply Hsat; reflexivity.
  - destruct (C2_tariff_selection Examples.YEAR Examples.obs_monday_16
                Examples.multizona 1 15 16 example_year_valid eq_refl eq_refl eq_refl
                (Ht 15 16) (Hh 15 16) (He 15 16))
      as (r & t & s' & price & total & Hcall & Hpr & _ & _ & _ & _ & Hex).
    destruct (Hex eq_refl eq_refl eq_refl) as (_ & _ & Hm16).
    exists r, t, s'. split; [exact Hcall |].
    rewrite Hpr. f_equal. apply Hm16; reflexivity.
Defined.


(** C3. On an observation that holds all the keys read, the evaluation returns
    [reward = energy_term + comfort_term] with
    [energy_term = lambda_energy * W * energy_penalty],
    [comfort_term = lambda_temperature * (1 - W) * (- total_violation)] and
    [energy_penalty = - ((sum of the configured energy readings) / 1000) * price]. *)
Theorem C3_weighted_combination
    (YEAR : Z) (obs : gmap string Q) (s : MZ.self) (mo dd hh : Q) :
  (Datetime.MINYEAR ≤ YEAR ≤ Datetime.MAXYEAR)%Z →
  obs !! "month" = Some mo →
  obs !! "day_of_month" = Some dd →
  obs !! "hour" = Some hh →
  Spec.has_keys obs (MZ.temp_names s) →
  Spec.has_keys obs (MZ.hum_names s) →
  Spec.has_keys obs (MZ.energy_names s) →
  ∃ reward terms s' (readings : list Q) (price total_violation : Q),
    MZ.__call__ YEAR obs s = (Ok (reward, terms), s')
    ∧ Forall2 (λ v x, getitem obs v = Ok x) (MZ.energy_names s) readings
    ∧ terms !! "price_kwh" = Some price
    ∧ terms !! "total_temperature_violation" = Some total_violation
    ∧ terms !! "reward_weight" = Some (MZ.W_energy s)
    ∧ let W := MZ.W_energy s in
      let energy_penalty := - (sum readings / 1000) * price in
      let energy_term := MZ.lambda_energy s * W * energy_penalty in
      let comfort_term := MZ.lambda_temp s * (1 - W) * (- total_violation) in
      terms !! "energy_penalty" = Some energy_penalty
      ∧ terms !! "energy_term" = Some energy_term
      ∧ terms !! "comfort_term" = Some comfort_term
      ∧ reward = energy_term + comfort_term.
Proof.
  intros HY Hmo Hdd Hhh Ht Hh He.
  destruct (MZ_call_total obs s Ht Hh He) as (evs & vs & ps & HF & Hev & Hz).
  pose proof (MZ_call_spec YEAR obs s mo dd hh evs vs ps HY Hmo Hdd Hhh Hev Hz)
    as Hcall.
  cbv zeta in Hcall.
  set (price := Spec.price_at _ _ _ _ _ _ _) in Hcall.
  eexists _, _, _, evs, price, (sum vs). split; [exact Hcall |].
  split; [exact HF |].
  pose proof (MZ_terms_lookup
                (MZ.lambda_energy s * MZ.W_energy s * (- (sum evs / 1000) * price))
                (MZ.lambda_temp s * (1 - MZ.W_energy s) * - sum vs)
                (- (sum evs / 1000) * price) (- sum vs) (sum evs) (sum vs)
                (MZ.W_energy s)
                (sum ps / inject_Z (Z.max (Z.of_nat (length ps)) 1)) price)
    as (Het & Hct & Hep & _ & _ & Htv & Hw & _ & Hpr).
  cbv zeta. repeat (split; [assumption |]). reflexivity.
Qed.

Lemma C3_weighted_combination_witness :
  ((Datetime.MINYEAR ≤ Examples.YEAR ≤ Datetime.MAXYEAR)%Z
   ∧ Examples.obs_monday_18 !! "month" = Some 1
   ∧ Examples.obs_monday_18 !! "day_of_month" = Some 15
   ∧ Examples.obs_monday_18 !! "hour" = Some 18
   ∧ Spec.has_keys Examples.obs_monday_18 (MZ.temp_names Examples.multizona)
   ∧ Spec.has_keys Examples.obs_monday_18 (MZ.hum_names Examples.multizona)
   ∧ Spec.has_keys Examples.obs_monday_18 (MZ.energy_names Examples.multizona))
  ∧ ∃ reward terms s' energy_term comfort_term,
      MZ.__call__ Examples.YEAR Examples.obs_monday_18 Examples.multizona
      = (Ok (reward, terms), s')
      ∧ terms !! "energy_term" = Some energy_term
      ∧ terms !! "comfort_term" = Some comfort_term
      ∧ reward = energy_term + comfort_term.
Proof.
  assert (Ht : Spec.has_keys Examples.obs_monday_18 (MZ.temp_names Examples.multizona))
    by keys_present.
  assert (Hh : Spec.has_keys Examples.obs_monday_18 (MZ.hum_names Examples.multizona))
    by keys_present.
  assert (He : Spec.has_keys Examples.obs_monday_18 (MZ.energy_names Examples.multizona))
    by keys_present.
  split.
  - repeat split; first [reflexivity | apply example_year_valid | assumption].
  - destruct (C3_weighted_combination Examples.YEAR Examples.obs_monday_18
                Examples.multizona 1 15 18 example_year_valid eq_refl eq_refl eq_refl
                Ht Hh He)
      as (r & t & s' & readings & price & tv & Hcall & _ & _ & _ & _ & Hrest).
    cbv zeta in Hrest. destruct Hrest as (_ & Het & Hct & Hr).
    eexists r, t, s', _, _. repeat split; eassumption.
Defined.

(** The scenario of the specification: Monday 18h, 2000 W at the peak price
    10.0, one zone at 22.0 °C and 45 %. *)
Example MZ_end_to_end :
  ∃ reward terms s',
    MZ.__call__ Examples.YEAR Examples.obs_monday_18 Examples.multizona
    = (Ok (reward, terms), s')
    ∧ reward == -16.9958944
    ∧ terms !! "price_kwh" = Some 10.0.
Proof.
  pose (v := (MZ._calculate_pmv_violation 22.0 45.0 (sum [2000.0])).2).
  pose (p := (MZ._calculate_pmv_violation 22.0 45.0 (sum [2000.0])).1).
  pose proof (MZ_call_spec Examples.YEAR Examples.obs_monday_18 Examples.multizona
                1 15 18 [2000.0] [v] [p] example_year_valid
                eq_refl eq_refl eq_refl eq_refl eq_refl) as Hcall.
  cbv zeta in Hcall.
  eexists _, _, _. split; [exact Hcall |].
  split; vm_compute; reflexivity.
Qed.

(** ** Thermal-sensation index and comfort violation *)

(** C4. The thermal-sensation index computed for a zone by both multi-zone
    engines is [-7.4928 + 0.2882*T - 0.0020*RH + 0.0004*T*RH]; at
    [T = 25.0], [RH = 50.0] it is that expression evaluated there. *)
Theorem C4_pmv_formula (tdb rh total_energy : Q) :
  (MZ._calculate_pmv_violation tdb rh total_energy).1 = Spec.pmv_regression tdb rh
  ∧ (PPO._calculate_pmv_violation tdb rh).1
    = Spec.pmv_regression tdb rh
  ∧ (MZ._calculate_pmv_violation 25.0 50.0 total_energy).1
    = -7.4928 + 0.2882 * 25.0 - 0.0020 * 50.0 + 0.0004 * 25.0 * 50.0
  ∧ (PPO._calculate_pmv_violation 25.0 50.0).1
    = -7.4928 + 0.2882 * 25.0 - 0.0020 * 50.0 + 0.0004 * 25.0 * 50.0
  ∧ (MZ._calculate_pmv_violation 25.0 50.0 total_energy).1 == 0.1122.
Proof.
  repeat split; vm_compute; reflexivity.
Qed.

Lemma band_distance_nonneg (pmv : Q) : 0 <= Spec.band_distance pmv.
Proof.
  unfold Spec.band_distance.
  pose proof (Q.le_max_r (-0.5 - pmv) 0). pose proof (Q.le_max_r (pmv - 0.5) 0).
  lra.
Qed.

Lemma band_distance_cases (pmv : Q) :
  (pmv < -0.5 ∧ Spec.band_distance pmv == -0.5 - pmv)
  ∨ (-0.5 <= pmv <= 0.5 ∧ Spec.band_distance pmv == 0)
  ∨ (0.5 < pmv ∧ Spec.band_distance pmv == pmv - 0.5).
Proof.
  unfold Spec.band_distance.
  destruct (Qlt_le_dec pmv (-0.5)) as [Hc | Hc].
  - left. split; [assumption |].
    rewrite (Q.max_l (-0.5 - pmv) 0) by lra. rewrite (Q.max_r (pmv - 0.5) 0) by lra.
    lra.
  - destruct (Qlt_le_dec 0.5 pmv) as [Hh | Hh].
    + right. right. split; [assumption |].
      rewrite (Q.max_r (-0.5 - pmv) 0) by lra. rewrite (Q.max_l (pmv - 0.5) 0) by lra.
      lra.
    + right. left. split; [split; assumption |].
      rewrite (Q.max_r (-0.5 - pmv) 0) by lra. rewrite (Q.max_r (pmv - 0.5) 0) by lra.
      lra.
Qed.

Lemma MZ_violation_hybrid (tdb rh total_energy : Q) :
  (MZ._calculate_pmv_violation tdb rh total_energy).2
  == Spec.hybrid_violation (MZ._calculate_pmv_violation tdb rh total_energy).1.
Proof.
  unfold MZ._calculate_pmv_violation, Spec.hybrid_violation, Spec.band_distance.
  cbn [fst snd].
  set (pmv := -7.4928 + 0.2882 * tdb - 0.0020 * rh + 0.0004 * tdb * rh).
  rewrite !max2_Qmax.
  assert (H0 : 0.0 == 0) by reflexivity.
  rewrite !H0. simpl Qpower. ring.
Qed.

Lemma hybrid_violation_zero (pmv : Q) :
  Spec.hybrid_violation pmv == 0 ↔ -0.5 <= pmv ∧ pmv <= 0.5.
Proof.
  unfold Spec.hybrid_violation. simpl Qpower.
  pose proof (band_distance_nonneg pmv) as Hd.
  destruct (band_distance_cases pmv) as [[Hc He] | [[Hc He] | [Hc He]]];
    set (d := Spec.band_distance pmv) in *; split.
  - intros Hv. assert (d == 0) by nra. lra.
  - lra.
  - intros _. exact Hc.
  - intros _. rewrite He. ring.
  - intros Hv. assert (d == 0) by nra. lra.
  - lra.
Qed.

#[local] Instance band_distance_proper : Proper (Qeq ==> Qeq) Spec.band_distance.
Proof.
  intros p q Hpq. unfold Spec.band_distance.
  apply Qplus_comp; apply Q.max_compat; rewrite ?Hpq; reflexivity.
Qed.

#[local] Instance hybrid_violation_proper : Proper (Qeq ==> Qeq) Spec.hybrid_violation.
Proof.
  intros p q Hpq. unfold Spec.hybrid_violation. simpl Qpower. by rewrite Hpq.
Qed.

(** C5. With [d = max(-0.5 - PMV, 0) + max(PMV - 0.5, 0)] the violation of a
    zone is [d + d²]: it is 0 exactly on the band [-0.5, +0.5], it is 2.0 at
    [PMV = -1.5] (where [d = 1.0]) and 0.8 + 0.64 = 1.44 at [PMV = 1.3] (where
    [d = 0.8]); every PMV value is reached by some reading. *)
Theorem C5_symmetric_violation (tdb rh total_energy : Q) :
  let pmv := (MZ._calculate_pmv_violation tdb rh total_energy).1 in
  let violation := (MZ._calculate_pmv_violation tdb rh total_energy).2 in
  let d := Spec.band_distance pmv in
  violation == d + d ^ 2
  ∧ (violation == 0 ↔ -0.5 <= pmv ∧ pmv <= 0.5)
  ∧ (pmv == -1.5 → d == 1.0 ∧ violation == 2.0)
  ∧ (pmv == 1.3 → d == 0.8 ∧ violation == 0.8 + 0.64 ∧ violation == 1.44)
  ∧ (∀ p : Q, ∃ tdb' rh' : Q,
       (MZ._calculate_pmv_violation tdb' rh' total_energy).1 == p
       ∧ (MZ._calculate_pmv_violation tdb' rh' total_energy).2
         == Spec.band_distance p + Spec.band_distance p ^ 2).
Proof.
  intros pmv violation d.
  pose proof (MZ_violation_hybrid tdb rh total_energy) as Hv.
  fold pmv violation in Hv.
  split; [exact Hv |].
  split; [rewrite Hv; apply hybrid_violation_zero |].
  split; [| split].
  - intros Hp. rewrite Hv. subst d. rewrite Hp. split; vm_compute; reflexivity.
  - intros Hp. rewrite Hv. subst d. rewrite Hp. repeat split; vm_compute; reflexivity.
  - intros p. exists ((p + 7.4928) / 0.2882), 0.
    assert (Hp : (MZ._calculate_pmv_violation ((p + 7.4928) / 0.2882) 0
                    total_energy).1 == p).
    { unfold MZ._calculate_pmv_violation. cbn [fst]. field. }
    split; [exact Hp |].
    rewrite MZ_violation_hybrid, Hp. reflexivity.
Qed.

Lemma C5_symmetric_violation_witness :
  (MZ._calculate_pmv_violation (59928 # 2882) 0 0).1 == -1.5
  ∧ (MZ._calculate_pmv_violation (59928 # 2882) 0 0).2 == 2.0
  ∧ (MZ._calculate_pmv_violation (87928 # 2882) 0 0).1 == 1.3
  ∧ (MZ._calculate_pmv_violation (87928 # 2882) 0 0).2 == 1.44.
Proof.
  assert (H1 : (MZ._calculate_pmv_violation (59928 # 2882) 0 0).1 == -1.5)
    by (vm_compute; reflexivity).
  assert (H2 : (MZ._calculate_pmv_violation (87928 # 2882) 0 0).1 == 1.3)
    by (vm_compute; reflexivity).
  split; [exact H1 |]. split.
  - exact (proj2 (proj1 (proj2 (proj2 (C5_symmetric_violation (59928 # 2882) 0 0))) H1)).
  - split; [exact H2 |].
    exact (proj2 (proj2 (proj1 (proj2 (proj2 (proj2
             (C5_symmetric_violation (87928 # 2882) 0 0)))) H2))).
Defined.

(** C1 (evaluation of the code). [_calculate_pmv_violation] never reads
    [total_energy]: with a total energy reading of 0 and [PMV = 1.0] the
    violation of the zone is 0.75, as with any other energy reading, and the
    evaluation of such an observation reports it as the total violation. *)
Theorem C1_hot_side_penalised_without_energy :
  (∀ tdb rh e1 e2 : Q,
     MZ._calculate_pmv_violation tdb rh e1 = MZ._calculate_pmv_violation tdb rh e2)
  ∧ (MZ._calculate_pmv_violation (42464 # 1441) 0 0).1 == 1.0
  ∧ (MZ._calculate_pmv_violation (42464 # 1441) 0 0).2 == 0.75
  ∧ ∃ reward terms s' total violation,
      MZ.__call__ Examples.YEAR Examples.obs_hot_idle Examples.multizona
      = (Ok (reward, terms), s')
      ∧ terms !! "total_power_demand" = Some total ∧ total == 0
      ∧ terms !! "total_temperature_violation" = Some violation
      ∧ violation == 0.75.
Proof.
  split; [reflexivity |].
  split; [vm_compute; reflexivity |].
  split; [vm_compute; reflexivity |].
  pose (v := (MZ._calculate_pmv_violation (42464 # 1441) 0 (sum [0])).2).
  pose (p := (MZ._calculate_pmv_violation (42464 # 1441) 0 (sum [0])).1).
  assert (HY : (Datetime.MINYEAR ≤ Examples.YEAR ≤ Datetime.MAXYEAR)%Z)
    by (vm_compute; split; discriminate).
  pose proof (MZ_call_spec Examples.YEAR Examples.obs_hot_idle Examples.multizona
                1 15 18 [0] [v] [p] HY eq_refl eq_refl eq_refl eq_refl eq_refl)
    as Hcall.
  cbv zeta in Hcall.
  eexists _, _, _, (sum [0]), (sum [v]). split; [exact Hcall |].
  pose proof (MZ_terms_lookup) as Hl. cbv zeta in Hl.
  split; [apply Hl |]. split; [reflexivity |]. split; [apply Hl |].
  vm_compute. reflexivity.
Qed.

(** ** Construction *)

Lemma between_outside (w : Q) : w < 0 ∨ 1 < w → between 0 w 1 = false.
Proof.
  intros Hw. unfold between. apply andb_false_iff.
  destruct Hw as [Hw | Hw]; [left | right];
    apply not_true_is_false; rewrite Qle_bool_iff; lra.
Qed.

Lemma between_inside (w : Q) : 0 <= w ∧ w <= 1 → between 0 w 1 = true.
Proof.
  intros [H0 H1]. unfold between. apply andb_true_intro.
  split; apply Qle_bool_iff; assumption.
Qed.

(** C6. With an [energy_weight] outside [0, 1] the constructor of each of the
    four engines raises [ValueError]: no instance is returned. *)
Theorem C6_weight_bounds (energy_weight : Q) :
  energy_weight < 0 ∨ 1 < energy_weight →
  (∀ tv ev rw rs ss sf le lt,
     LinearReward.__init__ tv ev rw rs ss sf energy_weight le lt = Raise ValueError)
  ∧ (∀ tv ev le lt hp lp sched,
       NuestroReward.__init__ tv ev energy_weight le lt hp lp sched = Raise ValueError)
  ∧ (∀ tv hv ev le lt tarifa hp lp,
       MZ.__init__ tv hv ev energy_weight le lt tarifa hp lp = Raise ValueError)
  ∧ (∀ tv hv ev le lt tarifa hp lp sched,
       NuestroRewardMultizonaPPO.__init__ tv hv ev energy_weight le lt tarifa hp lp sched
       = Raise ValueError).
Proof.
  intros Hw. pose proof (between_outside _ Hw) as Hb.
  repeat split; intros;
    unfold LinearReward.__init__, NuestroReward.__init__, MZ.__init__,
      NuestroRewardMultizonaPPO.__init__;
    rewrite Hb; reflexivity.
Qed.

Lemma C6_weight_bounds_witness :
  (1 < 1.5
   ∧ MZ.__init__ [VStr "east_temp"] [VStr "east_rh"] [VStr "heat_pump_power"]
       1.5 1 30 None 10.0 4.0 = Raise ValueError)
  ∧ (-0.1 < 0
     ∧ LinearReward.__init__ [VStr "east_temp"] [VStr "heat_pump_power"]
         (20.0, 23.5) (23.0, 26.0) (6, 1)%Z (9, 30)%Z (-0.1) 1 1 = Raise ValueError).
Proof.
  assert (H1 : 1 < 1.5) by reflexivity.
  assert (H2 : -0.1 < 0) by reflexivity.
  split; (split; [assumption |]).
  - apply (C6_weight_bounds 1.5 (or_intror H1)).
  - apply (C6_weight_bounds (-0.1) (or_introl H2)).
Defined.

Lemma zip_length {A B} (a : list A) (b : list B) :
  length (zip a b) = Nat.min (length a) (length b).
Proof.
  revert b. induction a as [| x a IH]; intros [| y b]; simpl; try reflexivity.
  by rewrite IH.
Qed.

Lemma MZ_zones_loop_length (obs : gmap string Q) (e : Q)
    (pairs : list (pyval * pyval)) (vs ps vs' ps' : list Q) :
  MZ._zones_loop obs e pairs vs ps = Ok (vs', ps') →
  length vs' = (length vs + length pairs)%nat
  ∧ length ps' = (length ps + length pairs)%nat.
Proof.
  revert vs ps. induction pairs as [| [tv hv] pairs IH]; intros vs ps Hloop.
  - simpl in Hloop. injection Hloop as <- <-. simpl. lia.
  - cbn [MZ._zones_loop] in Hloop.
    destruct (getitem obs tv) as [t |]; [| discriminate].
    destruct (getitem obs hv) as [h |]; [| discriminate].
    cbn [mbind result_bind] in Hloop.
    destruct (MZ._calculate_pmv_violation t h e) as [p v].
    apply IH in Hloop. rewrite !length_app in Hloop. simpl in *. lia.
Qed.

(** C7 (as stated, refuted). Two temperature variables against one humidity
    variable: construction returns an engine, and that engine evaluates an
    observation that does not even hold the unpaired temperature variable,
    with the result of the one-zone engine. *)
Lemma C7_mismatched_lengths_accepted :
  MZ.__init__ Examples.mismatched_temperature Examples.mismatched_humidity
    [VStr "heat_pump_power"] 0.5 1 30 None 10.0 4.0
  = Ok Examples.multizona_mismatched
  ∧ length (MZ.temp_names Examples.multizona_mismatched) = 2%nat
  ∧ length (MZ.hum_names Examples.multizona_mismatched) = 1%nat
  ∧ Examples.obs_monday_18 !! "west_temp" = None
  ∧ ∃ reward terms s1 s2,
      MZ.__call__ Examples.YEAR Examples.obs_monday_18 Examples.multizona_mismatched
      = (Ok (reward, terms), s1)
      ∧ MZ.__call__ Examples.YEAR Examples.obs_monday_18 Examples.multizona
        = (Ok (reward, terms), s2).
Proof.
  split; [reflexivity |]. split; [reflexivity |]. split; [reflexivity |].
  split; [reflexivity |].
  pose (v := (MZ._calculate_pmv_violation 22.0 45.0 (sum [2000.0])).2).
  pose (p := (MZ._calculate_pmv_violation 22.0 45.0 (sum [2000.0])).1).
  pose proof (MZ_call_spec Examples.YEAR Examples.obs_monday_18
                Examples.multizona_mismatched 1 15 18 [2000.0] [v] [p]
                example_year_valid eq_refl eq_refl eq_refl eq_refl eq_refl) as H1.
  pose proof (MZ_call_spec Examples.YEAR Examples.obs_monday_18
                Examples.multizona 1 15 18 [2000.0] [v] [p]
                example_year_valid eq_refl eq_refl eq_refl eq_refl eq_refl) as H2.
  cbv zeta in H1, H2.
  eexists _, _, _, _. split; [exact H1 | exact H2].
Qed.

(** C7 (amended). The constructor does not compare the lengths of the
    temperature and humidity lists: with a weight in [0, 1], string names for
    the temperature and energy variables and known day names in the tariff, it
    returns an engine that holds the three lists as given, whatever their
    lengths; an evaluation of the zones then covers the common prefix of the
    two lists only, one reading pair per position. *)
Theorem C7_lengths_not_validated
    (temperature_variables humidity_variables energy_variables : list pyval)
    (energy_weight lambda_energy lambda_temperature : Q)
    (tarifa_json : option Tarifa.t) (high_price low_price : Q) :
  0 <= energy_weight ∧ energy_weight <= 1 →
  forallb isinstance_str (temperature_variables ++ energy_variables) = true →
  (∀ tarifa, tarifa_json = Some tarifa →
     Forall (λ d, ∃ n, Tarifa.dia d = Ok n)
            (Tarifa.dias_punta (Tarifa.tarifa_horarios tarifa))) →
  ∃ eng,
    MZ.__init__ temperature_variables humidity_variables energy_variables
      energy_weight lambda_energy lambda_temperature tarifa_json high_price low_price
    = Ok eng
    ∧ MZ.temp_names eng = temperature_variables
    ∧ MZ.hum_names eng = humidity_variables
    ∧ MZ.energy_names eng = energy_variables
    ∧ ∀ obs total_energy s' violations pmv_values,
        MZ._get_temperature_violation obs total_energy eng
        = (Ok (violations, pmv_values), s') →
        length violations
        = Nat.min (length temperature_variables) (length humidity_variables)
        ∧ length pmv_values
          = Nat.min (length temperature_variables) (length humidity_variables).
Proof.
  intros Hw Hstr Hdias.
  assert (Hzones : ∀ eng,
    MZ.temp_names eng = temperature_variables →
    MZ.hum_names eng = humidity_variables →
    ∀ obs total_energy s' violations pmv_values,
      MZ._get_temperature_violation obs total_energy eng
      = (Ok (violations, pmv_values), s') →
      length violations
      = Nat.min (length temperature_variables) (length humidity_variables)
      ∧ length pmv_values
        = Nat.min (length temperature_variables) (length humidity_variables)).
  { intros eng Ht Hh obs e s' vs ps Hget.
    unfold MZ._get_temperature_violation, MZ.gets in Hget.
    cbv [mbind mret M_bind M_ret get lift] in Hget.
    rewrite Ht, Hh in Hget. injection Hget as Hloop _.
    apply MZ_zones_loop_length in Hloop. rewrite zip_length in Hloop.
    simpl in Hloop. exact Hloop. }
  unfold MZ.__init__. rewrite (between_inside _ Hw), Hstr. cbn [negb].
  destruct tarifa_json as [tarifa |].
  - destruct (comprehension_ok _ _ (Hdias tarifa eq_refl)) as [dias [Hd _]].
    rewrite Hd. cbn [mbind result_bind].
    eexists. split; [reflexivity |].
    split; [reflexivity |]. split; [reflexivity |]. split; [reflexivity |].
    apply Hzones; reflexivity.
  - eexists. split; [reflexivity |].
    split; [reflexivity |]. split; [reflexivity |]. split; [reflexivity |].
    apply Hzones; reflexivity.
Qed.

Lemma C7_lengths_not_validated_witness :
  (0 <= 0.5 ∧ 0.5 <= 1)
  ∧ forallb isinstance_str (Examples.mismatched_temperature ++ [VStr "heat_pump_power"])
    = true
  ∧ ∃ eng,
      MZ.__init__ Examples.mismatched_temperature Examples.mismatched_humidity
        [VStr "heat_pump_power"] 0.5 1 30 None 10.0 4.0 = Ok eng
      ∧ MZ.temp_names eng = Examples.mismatched_temperature
      ∧ MZ.hum_names eng = Examples.mismatched_humidity.
Proof.
  assert (Hw : 0 <= 0.5 ∧ 0.5 <= 1) by (split; discriminate).
  split; [exact Hw |]. split; [reflexivity |].
  destruct (C7_lengths_not_validated Examples.mismatched_temperature
              Examples.mismatched_humidity [VStr "heat_pump_power"] 0.5 1 30 None
              10.0 4.0 Hw eq_refl)
    as (eng & Hinit & Ht & Hh & _).
  - intros tarifa Habs. discriminate Habs.
  - exists eng. repeat split; assumption.
Defined.


(** ** Presence schedule: what the instance keeps across evaluations *)

Section Preserves.

Context {S : Type} (P : S → Prop).

Lemma preserves_ret {A} (a : A) : preserves P (mret a).
Proof. intros s r s' [= _ <-] Hs. exact Hs. Qed.

Lemma preserves_lift {A} (x : result A) : preserves P (lift x).
Proof. intros s r s' [= _ <-] Hs. exact Hs. Qed.

Lemma preserves_get : preserves P get.
Proof. intros s r s' [= _ <-] Hs. exact Hs. Qed.

Lemma preserves_attr (a : option Q) : preserves P (attr a).
Proof. destruct a; [apply preserves_ret | apply preserves_lift]. Qed.

Lemma preserves_modify (f : S → S) :
  (∀ s, P s → P (f s)) → preserves P (modify f).
Proof. intros Hf s r s' [= _ <-] Hs. by apply Hf. Qed.

Lemma preserves_bind {A B} (m : M S A) (k : A → M S B) :
  preserves P m → (∀ a, preserves P (k a)) → preserves P (m ≫= k).
Proof.
  intros Hm Hk s r s' Hrun Hs.
  unfold mbind, M_bind in Hrun.
  destruct (m s) as [[a | e] s1] eqn:Hms.
  - eapply Hk; [exact Hrun |]. eapply Hm; [exact Hms | exact Hs].
  - injection Hrun as _ <-. eapply Hm; [exact Hms | exact Hs].
Qed.

End Preserves.

Ltac preserves_step :=
  lazymatch goal with
  | |- preserves _ (_ ≫= _) => apply preserves_bind; [| intros ?]
  | |- preserves _ (mret _) => apply preserves_ret
  | |- preserves _ (lift _) => apply preserves_lift
  | |- preserves _ get => apply preserves_get
  | |- preserves _ (attr _) => apply preserves_attr
  | |- preserves _ (modify _) =>
      apply preserves_modify; intros [] ?; first [assumption | reflexivity]
  | |- preserves _ (if ?b then _ else _) => destruct b
  | |- preserves _ (match ?x with _ => _ end) => destruct x
  end.

Lemma NuestroReward_weight_latched (YEAR : Z) (obs : gmap string Q) :
  preserves (λ s, NuestroReward.W_energy s = 1) (NuestroReward.__call__ YEAR obs).
Proof.
  unfold NuestroReward.__call__, NuestroReward._apply_schedule,
    NuestroReward._get_reward, NuestroReward._get_temperature_violation,
    NuestroReward._get_energy_consumed, NuestroReward.gets, NuestroReward.getattr.
  repeat preserves_step.
Qed.

Lemma PPO_weight_latched (YEAR : Z) (obs : gmap string Q) :
  preserves (λ s, NuestroRewardMultizonaPPO.W_energy s = 1)
            (NuestroRewardMultizonaPPO.__call__ YEAR obs).
Proof.
  unfold NuestroRewardMultizonaPPO.__call__, NuestroRewardMultizonaPPO._apply_schedule,
    NuestroRewardMultizonaPPO._get_temperature_violation,
    NuestroRewardMultizonaPPO._get_energy_consumed, NuestroRewardMultizonaPPO.gets,
    NuestroRewardMultizonaPPO.getattr.
  repeat preserves_step.
Qed.

(** C8 (evaluation of the code). The override is written to the instance and
    stays there. The engines below are configured with weight 0.5 and a
    schedule whose only row, Monday 18h, has multiplier 0, so that the weight
    resolved for Monday 19h (absent from the schedule) is 0.5. Evaluating
    Monday 19h before the unoccupied slot reports weight 0.5; evaluating the
    same observation after that slot reports weight 1. *)
Theorem C8_weight_override_persists :
  NuestroReward.W_energy Examples.nuestro = 0.5
  ∧ Spec.resolve_weight (NuestroReward.W_energy Examples.nuestro)
      (Schedule.my_factor
         <$> head (Schedule.select Examples.presence (Examples.YEAR, 1, 15)%Z 19))
    = 0.5
  ∧ Examples.nuestro_weights
      [Examples.obs_monday_19; Examples.obs_monday_18; Examples.obs_monday_19;
       Examples.obs_saturday_18]
      Examples.nuestro
    = [Some 0.5; Some 1; Some 1; Some 1]
  ∧ NuestroRewardMultizonaPPO.W_energy Examples.ppo = 0.5
  ∧ Examples.ppo_weights
      [Examples.obs_monday_19; Examples.obs_monday_18; Examples.obs_monday_19;
       Examples.obs_saturday_18]
      Examples.ppo
    = [Some (VNum 0.5); Some (VNum 1); Some (VNum 1); Some (VNum 1)].
Proof.
  repeat split; vm_compute; reflexivity.
Qed.

(** ** NuestroReward: the comfort violation *)

Lemma band_violation_lt (pmv c : Q) :
  -0.5 - pmv < c → 0 < c → pmv - 0.5 < c → Spec.band_violation pmv < c.
Proof.
  intros H1 H2 H3. unfold Spec.band_violation.
  apply Q.max_lub_lt; [apply Q.max_lub_lt |]; assumption.
Qed.

Lemma band_violation_in_band (pmv : Q) :
  -0.5 <= pmv ∧ pmv <= 0.5 → Spec.band_violation pmv == 0.
Proof.
  intros [Hlo Hhi]. unfold Spec.band_violation.
  rewrite (Q.max_r (-0.5 - pmv) 0) by lra. apply Q.max_l. lra.
Qed.

(** C9. The call [max(-0,5 - (pmv), 0, pmv - 0,5)] has the five arguments
    [-0], [5 - pmv], [0], [pmv - 0], [5]: for every temperature and humidity
    reading the value returned is at least 5, so it is never 0 and never the
    band violation [max(-0.5 - PMV, 0, PMV - 0.5)], also when PMV lies in
    [-0.5, +0.5], where the band violation is 0. *)
Theorem C9_comma_literal
    (obs : gmap string Q) (s : NuestroReward.self) (k0 k1 : pyval) (tdb rh : Q) :
  NuestroReward.temp_names s !! 0%nat = Some k0 →
  NuestroReward.temp_names s !! 1%nat = Some k1 →
  getitem obs k0 = Ok tdb →
  getitem obs k1 = Ok rh →
  let pmv := Spec.pmv_regression tdb rh in
  ∃ violacion,
    NuestroReward._get_temperature_violation obs s = (Ok [violacion], s)
    ∧ violacion == Qmax 5 (Qmax (5 - pmv) pmv)
    ∧ 5 <= violacion
    ∧ ¬ violacion == Spec.band_violation pmv
    ∧ ¬ violacion == 0
    ∧ (-0.5 <= pmv ∧ pmv <= 0.5 →
       Spec.band_violation pmv == 0 ∧ 5 <= violacion ∧ violacion <= 5.5).
Proof.
  intros H0 H1 Ht Hr pmv.
  unfold NuestroReward._get_temperature_violation, NuestroReward.gets, index.
  cbv [mbind mret M_bind M_ret get lift].
  rewrite H0, Ht, H1, Hr.
  fold (Spec.pmv_regression tdb rh). fold pmv.
  set (v := max_of (- 0) [5 - pmv; 0; pmv - 0; 5]).
  exists v. split; [reflexivity |].
  assert (Hv : v == Qmax 5 (Qmax (5 - pmv) pmv)).
  { subst v. unfold max_of. cbn [fold_left].
    set (m1 := max2 (- 0) (5 - pmv)). set (m2 := max2 m1 0).
    set (m3 := max2 m2 (pmv - 0)).
    assert (- 0 <= m1) by apply max2_ge_l. assert (5 - pmv <= m1) by apply max2_ge_r.
    assert (m1 <= m2) by apply max2_ge_l. assert (0 <= m2) by apply max2_ge_r.
    assert (m2 <= m3) by apply max2_ge_l. assert (pmv - 0 <= m3) by apply max2_ge_r.
    set (m4 := max2 m3 5).
    assert (m3 <= m4) by apply max2_ge_l. assert (5 <= m4) by apply max2_ge_r.
    set (n1 := Qmax (5 - pmv) pmv). set (n2 := Qmax 5 n1).
    assert (5 - pmv <= n1) by apply Q.le_max_l. assert (pmv <= n1) by apply Q.le_max_r.
    assert (5 <= n2) by apply Q.le_max_l. assert (n1 <= n2) by apply Q.le_max_r.
    apply Qle_antisym.
    - subst m4 m3 m2 m1. clearbody n1 n2. repeat (apply max2_lub); lra.
    - subst n2 n1. clearbody m4 m3 m2 m1. repeat (apply Q.max_lub); lra. }
  assert (Hn1 : 5 - pmv <= Qmax (5 - pmv) pmv) by apply Q.le_max_l.
  assert (Hn2 : pmv <= Qmax (5 - pmv) pmv) by apply Q.le_max_r.
  assert (Hn3 : 5 <= Qmax 5 (Qmax (5 - pmv) pmv)) by apply Q.le_max_l.
  assert (Hn4 : Qmax (5 - pmv) pmv <= Qmax 5 (Qmax (5 - pmv) pmv))
    by apply Q.le_max_r.
  assert (H5 : 5 <= v) by lra.
  assert (Hp : pmv <= v) by lra.
  assert (Hm : 5 - pmv <= v) by lra.
  split; [exact Hv |]. split; [exact H5 |].
  split; [| split].
  - intros Heq. pose proof (band_violation_lt pmv v) as Hlt.
    rewrite <- Heq in Hlt. apply (Qlt_irrefl v). apply Hlt; lra.
  - intros Heq. lra.
  - intros Hband. split; [by apply band_violation_in_band |].
    split; [exact H5 |]. rewrite Hv.
    apply Q.max_lub; [lra |]. apply Q.max_lub; lra.
Qed.

Lemma C9_comma_literal_witness :
  (NuestroReward.temp_names Examples.nuestro !! 0%nat = Some (VStr "east_temp")
   ∧ NuestroReward.temp_names Examples.nuestro !! 1%nat = Some (VStr "east_rh")
   ∧ getitem Examples.obs_monday_18 (VStr "east_temp") = Ok 22.0
   ∧ getitem Examples.obs_monday_18 (VStr "east_rh") = Ok 45.0)
  ∧ ∃ violacion,
      NuestroReward._get_temperature_violation Examples.obs_monday_18 Examples.nuestro
      = (Ok [violacion], Examples.nuestro)
      ∧ 5 <= violacion.
Proof.
  split; [repeat split; reflexivity |].
  destruct (C9_comma_literal Examples.obs_monday_18 Examples.nuestro
              (VStr "east_temp") (VStr "east_rh") 22.0 45.0
              eq_refl eq_refl eq_refl eq_refl)
    as (v & Hrun & _ & H5 & _).
  exists v. split; assumption.
Defined.

(** ** Production adapter: observation read from the API *)

Lemma comprehension_Forall2 {A B} (f : A → result B) (l : list A) (xs : list B) :
  comprehension f l = Ok xs → Forall2 (λ v x, f v = Ok x) l xs.
Proof.
  revert xs. induction l as [| v l IH]; intros xs Hc; simpl in Hc.
  - injection Hc as <-. constructor.
  - destruct (f v) as [x |] eqn:Hx; [| discriminate].
    cbn [mbind result_bind] in Hc.
    destruct (comprehension f l) as [xs' |]; [| discriminate].
    injection Hc as <-. constructor; [assumption | by apply IH].
Qed.

Section ApiReading.

Context (float_of_string : string → option Q) (float32 : Q → Q).

Lemma map_step_reading (cfg : PE.api_config_t) (data : gmap string PE.json)
    (var_name : string) (values : list Q) :
  PE._map_step float_of_string cfg data var_name values
  = x ← Spec.api_reading float_of_string cfg data var_name; mret (values ++ [x]).
Proof.
  unfold PE._map_step, Spec.api_reading.
  destruct (data !! var_name); [reflexivity |].
  destruct (PE._field_mapping cfg !! var_name) as [f |]; [| reflexivity].
  destruct (data !! f); reflexivity.
Qed.

Lemma map_loop_reading (cfg : PE.api_config_t) (data : gmap string PE.json)
    (names : list string) (values : list Q) :
  PE._map_loop float_of_string cfg data names values
  = xs ← comprehension (Spec.api_reading float_of_string cfg data) names;
    mret (values ++ xs).
Proof.
  revert values. induction names as [| n names IH]; intros values.
  - simpl. by rewrite app_nil_r.
  - cbn [PE._map_loop comprehension]. rewrite map_step_reading.
    destruct (Spec.api_reading float_of_string cfg data n) as [x |]; [| reflexivity].
    cbn [mbind mret result_bind result_ret]. rewrite IH.
    destruct (comprehension _ names) as [xs |]; [| reflexivity].
    cbn [mbind mret result_bind result_ret]. by rewrite <- app_assoc.
Qed.

Lemma api_reading_missing (cfg : PE.api_config_t) (data : gmap string PE.json)
    (var_name : string) :
  data !! var_name = None →
  (PE._field_mapping cfg !! var_name = None
   ∨ ∃ f, PE._field_mapping cfg !! var_name = Some f ∧ data !! f = None) →
  Spec.api_reading float_of_string cfg data var_name = Ok 0.0.
Proof.
  intros Hd Hm. unfold Spec.api_reading. rewrite Hd.
  destruct Hm as [-> | [f [-> ->]]]; reflexivity.
Qed.

Lemma api_reading_total (cfg : PE.api_config_t) (data : gmap string PE.json) :
  (∀ k v, data !! k = Some v → ∃ q, PE.float float_of_string v = Ok q) →
  ∀ var_name, ∃ x, Spec.api_reading float_of_string cfg data var_name = Ok x.
Proof.
  intros Hnum n. unfold Spec.api_reading.
  destruct (data !! n) as [v |] eqn:Hn; [by eapply Hnum |].
  destruct (PE._field_mapping cfg !! n) as [f |]; [| by eexists].
  destruct (data !! f) as [v |] eqn:Hf; [by eapply Hnum | by eexists].
Qed.

(** C10. A configured variable that the response does not carry, and that is
    not mapped or is mapped to a field the response does not carry either,
    gets 0.0: its iteration appends 0.0 without raising, so the vector
    returned from the response holds 0.0 (as float32) at the position of that
    variable and has one entry per variable; the vector is returned whenever
    the fields that are present convert to float. *)
Theorem C10_missing_field_defaults_to_zero
    (s : PE.self) (response : string → result (gmap string PE.json))
    (endpoint : string) (data : gmap string PE.json)
    (i : nat) (var_name : string) :
  PE.observation_endpoint (PE.api_config s) = Some endpoint →
  endpoint ≠ "" →
  response endpoint = Ok data →
  PE.variable_names s !! i = Some var_name →
  data !! var_name = None →
  (PE._field_mapping (PE.api_config s) !! var_name = None
   ∨ ∃ f, PE._field_mapping (PE.api_config s) !! var_name = Some f
          ∧ data !! f = None) →
  (∀ values,
     PE._map_step float_of_string (PE.api_config s) data var_name values
     = Ok (values ++ [0.0]))
  ∧ (∀ vector,
       PE._get_observation_api float_of_string float32 s response = PE.FromApi vector →
       vector !! i = Some (float32 0.0)
       ∧ length vector = length (PE.variable_names s))
  ∧ ((∀ k v, data !! k = Some v → ∃ q, PE.float float_of_string v = Ok q) →
     ∃ vector,
       PE._get_observation_api float_of_string float32 s response = PE.FromApi vector
       ∧ vector !! i = Some (float32 0.0)).
Proof.
  intros Hep Hne Hresp Hi Hd Hm.
  pose proof (api_reading_missing _ _ _ Hd Hm) as Hzero.
  assert (Hrun : PE._get_observation_api float_of_string float32 s response
                 = match comprehension
                           (Spec.api_reading float_of_string (PE.api_config s) data)
                           (PE.variable_names s) with
                   | Ok xs => PE.FromApi (map float32 xs)
                   | Raise _ => PE.Simulated
                   end).
  { unfold PE._get_observation_api. rewrite Hep.
    apply String.eqb_neq in Hne. rewrite Hne, Hresp.
    cbn [mbind result_bind]. rewrite map_loop_reading.
    destruct (comprehension _ _); reflexivity. }
  assert (Hvec : ∀ xs,
            comprehension (Spec.api_reading float_of_string (PE.api_config s) data)
                          (PE.variable_names s) = Ok xs →
            map float32 xs !! i = Some (float32 0.0)
            ∧ length (map float32 xs) = length (PE.variable_names s)).
  { intros xs Hc. apply comprehension_Forall2 in Hc.
    destruct (Forall2_lookup_l _ _ _ _ _ Hc Hi) as (x & Hx & Hrd).
    rewrite Hzero in Hrd. injection Hrd as <-.
    split.
    - by rewrite list_lookup_fmap, Hx.
    - rewrite length_map. symmetry. by eapply Forall2_length. }
  split; [| split].
  - intros values. rewrite map_step_reading, Hzero. reflexivity.
  - intros vector Hv. rewrite Hrun in Hv.
    destruct (comprehension _ _) as [xs |] eqn:Hc; [| discriminate].
    injection Hv as <-. by apply Hvec.
  - intros Hnum.
    destruct (comprehension_ok
                (Spec.api_reading float_of_string (PE.api_config s) data)
                (PE.variable_names s)) as (xs & Hc & _).
    { apply Forall_forall. intros n _. by apply api_reading_total. }
    exists (map float32 xs). rewrite Hrun, Hc. split; [reflexivity |].
    by apply Hvec.
Qed.

End ApiReading.

Lemma C10_missing_field_defaults_to_zero_witness :
  (PE.observation_endpoint (PE.api_config Examples.adapter)
   = Some "http://sensors/observation"
   ∧ "http://sensors/observation" ≠ ""
   ∧ Examples.api_response "http://sensors/observation" = Ok Examples.api_data
   ∧ PE.variable_names Examples.adapter !! 1%nat = Some "east_rh"
   ∧ PE.variable_names Examples.adapter !! 2%nat = Some "co2"
   ∧ Examples.api_data !! "east_rh" = None
   ∧ Examples.api_data !! "co2" = None)
  ∧ ∃ vector,
      PE._get_observation_api (λ _, None) (λ q, q) Examples.adapter Examples.api_response
      = PE.FromApi vector
      ∧ vector !! 1%nat = Some 0.0
      ∧ vector !! 2%nat = Some 0.0.
Proof.
  assert (Hne : "http://sensors/observation" ≠ "") by discriminate.
  split; [repeat split; first [reflexivity | exact Hne] |].
  assert (Hnum : ∀ k v, Examples.api_data !! k = Some v →
                        ∃ q, PE.float (λ _, None) v = Ok q).
  { intros k v Hk. unfold Examples.api_data in Hk.
    apply lookup_singleton_Some in Hk as [_ <-]. by eexists. }
  destruct (C10_missing_field_defaults_to_zero (λ _, None) (λ q, q)
              Examples.adapter Examples.api_response "http://sensors/observation"
              Examples.api_data 1 "east_rh" eq_refl Hne eq_refl eq_refl eq_refl)
    as (_ & _ & H1).
  { right. exists "humidity". split; reflexivity. }
  destruct (C10_missing_field_defaults_to_zero (λ _, None) (λ q, q)
              Examples.adapter Examples.api_response "http://sensors/observation"
              Examples.api_data 2 "co2" eq_refl Hne eq_refl eq_refl eq_refl)
    as (_ & H2 & _).
  { left. reflexivity. }
  destruct (H1 Hnum) as (vector & Hv & Hv1).
  exists vector. split; [exact Hv |]. split; [exact Hv1 |].
  apply (H2 vector Hv).
Defined.
